(** * pyhyeon benchmark scripts: a shallow embedding and its properties

    The three scripts [benchmark_runner.py], [compare_jit.py] and
    [detailed_benchmark.py] time an external executable and print a report.
    They are embedded here as monadic programs over an explicit world:

    - a Python [float] is an IEEE 754 binary64 number, i.e. Rocq's primitive
      [float]; its operations are the primitive ones, so every definition
      evaluates on concrete inputs;
    - a Python [str] is held as its UTF-8 encoding, one byte per character of
      a Rocq string, and its items are counted in code points;
    - the builtin [sum] adds floats in one of two ways, according to the
      interpreter: plainly from left to right (CPython up to 3.11) or with a
      compensation term (CPython 3.12 and later); the environment says which;
    - the external process and the clock are an oracle that tells, for the
      k-th [subprocess.run] of the run, the two clock readings taken around it
      and the completed process.  An invocation is one that returns: a child
      that never ends, and an error output that [subprocess.run] fails to
      decode by raising, are outside the model; an error output that is left
      undecoded is [None];
    - [print] appends one record per call to the standard output of the
      world; a record keeps the pieces of the f-string apart, so the numbers
      that are printed stay visible as numbers;
    - a Python exception ends the program: the result is [Raise]. *)

From Stdlib Require Import ZArith List String Ascii Bool Lia.
From Stdlib Require Import Floats.
Import ListNotations.

(** ** Python values used by the scripts *)

Module Py.

(** [float(n)] for an [int]: the nearest binary64 number (ties to even). *)
Definition float_of_int (z : Z) : float :=
  SF2Prim (binary_normalize prec emax z 0 false).

(** [x > y] on floats is [y < x]. *)
Definition gtb (x y : float) : bool := (y <? x)%float.

(** [bool(x)] for a float: every float but the two zeros is true (a NaN too). *)
Definition truthy (x : float) : bool := negb (x =? 0)%float.

(** [bool(x)] where [x] is [None] or a float. *)
Definition truthy_opt (x : option float) : bool :=
  match x with
  | None => false
  | Some v => truthy v
  end.

(** How the builtin [sum] adds floats: CPython up to 3.11 adds the items to
    the running total one by one; CPython 3.12 and later carry the rounding
    errors along in a compensation term (Neumaier's variant of Kahan's
    summation) and add it to the total at the end. *)
Inductive summation := Plain | Compensated.

(** The running total and the compensation of the second way. *)
Record compensated := mkCompensated { hi : float; lo : float }.

(** One item more: [t = hi + x], and the error of that addition goes to the
    compensation, computed from the greater of the two in magnitude. *)
Definition cs_add (total : compensated) (x : float) : compensated :=
  let t := (hi total + x)%float in
  if (abs x <=? abs (hi total))%float
  then mkCompensated t (lo total + ((hi total - t) + x))%float
  else mkCompensated t (lo total + ((x - t) + hi total))%float.

(** The end: the compensation is added unless it is a zero, an infinity or
    a NaN. *)
Definition cs_to_double (total : compensated) : float :=
  if (negb (lo total =? 0)%float && is_finite (lo total))%bool
  then (hi total + lo total)%float
  else hi total.

(** [sum(xs)], from the start value 0: the first item is added to the
    integer 0 in either way, the later ones to the float total. *)
Definition sum (how : summation) (xs : list float) : float :=
  match how with
  | Plain => fold_left (fun acc x => (acc + x)%float) xs (float_of_int 0)
  | Compensated =>
      match xs with
      | [] => float_of_int 0
      | x :: rest =>
          cs_to_double
            (fold_left cs_add rest (mkCompensated (float_of_int 0 + x)%float 0%float))
      end
  end.

(** [min(xs)] keeps the running item unless a later one is strictly smaller;
    [max(xs)] unless a later one is strictly greater.  [None] stands for the
    [ValueError] of an empty argument. *)
Definition min_step (cur x : float) : float := if (x <? cur)%float then x else cur.
Definition max_step (cur x : float) : float := if gtb x cur then x else cur.

Definition min (xs : list float) : option float :=
  match xs with
  | [] => None
  | x :: r => Some (fold_left min_step r x)
  end.

Definition max (xs : list float) : option float :=
  match xs with
  | [] => None
  | x :: r => Some (fold_left max_step r x)
  end.

(** [len(xs)] as the float it becomes in [sum(xs) / len(xs)]; a list has
    fewer than 2^63 items, so the conversion is exact or rounds, and never
    overflows. *)
Definition len (xs : list float) : float := float_of_int (Z.of_nat (List.length xs)).

(** ["s" * n]. *)
Fixpoint str_mul (s : string) (n : nat) : string :=
  match n with
  | O => EmptyString
  | S k => (s ++ str_mul s k)%string
  end.

(** A byte [10xxxxxx] of the encoding continues the code point begun by an
    earlier byte. *)
Definition continues (c : ascii) : bool :=
  let n := nat_of_ascii c in (Nat.leb 128 n && Nat.ltb n 192)%bool.

(** [len(s)]: the number of code points. *)
Fixpoint str_len (s : string) : nat :=
  match s with
  | EmptyString => 0
  | String c r => if continues c then str_len r else S (str_len r)
  end.

(** [s[:n]]: the first [n] code points, each with all its bytes. *)
Fixpoint prefix (n : nat) (s : string) : string :=
  match s with
  | EmptyString => EmptyString
  | String c r =>
      if continues c then String c (prefix n r)
      else
        match n with
        | O => EmptyString
        | S k => String c (prefix k r)
        end
  end.

(** [str(x)] where [x] is [None] or a string. *)
Definition str (x : option string) : string :=
  match x with
  | None => "None"
  | Some s => s
  end.

(** An [int] as an operand of the true division: its sign and magnitude. *)
Definition int_operand (z : Z) : spec_float :=
  match z with
  | Z0 => S754_zero false
  | Zpos p => S754_finite false p 0
  | Zneg p => S754_finite true p 0
  end.

(** [a / b] for two [int]s, [b] not zero: the exact quotient rounded once to
    the nearest binary64 number, whatever the size of the operands; [None]
    when it rounds to 2^1024 or more in magnitude. *)
Definition int_quotient (a b : Z) : option float :=
  match SFdiv prec emax (int_operand a) (int_operand b) with
  | S754_infinity _ => None
  | q => Some (SF2Prim q)
  end.

(** [range(n)]; empty for a negative [n]. *)
Definition range (n : Z) : list nat := seq 0 (Z.to_nat n).

End Py.

(** ** The world: processes, clock and standard output *)

(** What [subprocess.run(..., capture_output=True, text=True)] returns: the
    exit status and the error output, decoded, or [None] when the reader of
    the error output failed to decode it. *)
Record CompletedProcess := mkProcess {
  returncode : Z;
  stderr : option string
}.

(** A completed process whose error output was decoded. *)
Definition mkCompleted (status : Z) (text : string) : CompletedProcess :=
  mkProcess status (Some text).

(** One timed invocation: the clock before, the clock after, the process. *)
Record invocation := mkInvocation {
  t_start : float;
  t_end : float;
  completed : CompletedProcess
}.

(** What a run depends on: the way the interpreter sums floats, and the
    k-th [subprocess.run] of the run, on a given test file. *)
Record env := mkEnv {
  summation : Py.summation;
  invoke :> nat -> string -> invocation
}.

(** A piece of a printed record. *)
Inductive frag :=
| Lit (s : string)                  (* literal text, or a [str] value *)
| Int (z : Z)                       (* an [int], as in [{i+1}] *)
| Fixed (digits : nat) (x : float). (* a float, as in [{x:.2f}] *)

Definition line := list frag.

Record world := mkWorld {
  calls : nat;          (* invocations made so far *)
  stdout : list line    (* records printed so far, oldest first *)
}.

Inductive exn := ZeroDivisionError | OverflowError | TypeError | ValueError.

Inductive result (A : Type) :=
| Ok (a : A)
| Raise (e : exn).
Arguments Ok {A} a.
Arguments Raise {A} e.

Definition M (A : Type) : Type := env -> world -> result A * world.

Definition ret {A} (a : A) : M A := fun _ w => (Ok a, w).

Definition bind {A B} (m : M A) (k : A -> M B) : M B :=
  fun e w =>
    match m e w with
    | (Ok a, w') => k a e w'
    | (Raise x, w') => (Raise x, w')
    end.

Definition raise {A} (x : exn) : M A := fun _ w => (Raise x, w).

Declare Scope py_scope.
Delimit Scope py_scope with py.
Notation "x <- m ;; k" := (bind m (fun x => k))
  (at level 100, m at next level, right associativity) : py_scope.
Notation "m ;; k" := (bind m (fun _ => k))
  (at level 100, right associativity) : py_scope.
Open Scope py_scope.

Definition print (l : line) : M unit :=
  fun _ w => (Ok tt, {| calls := calls w; stdout := stdout w ++ [l] |}).

(** [start = clock(); result = subprocess.run([exe, 'run', test_file], ...);
    end = clock()]. *)
Definition timed_run (test_file : string) : M invocation :=
  fun e w => (Ok (e (calls w) test_file),
              {| calls := S (calls w); stdout := stdout w |}).

(** [x / y] on floats raises when the divisor is zero. *)
Definition div (x y : float) : M float :=
  if (y =? 0)%float then raise ZeroDivisionError else ret (x / y)%float.

(** An [int] that meets a float in an arithmetic operation is converted
    first; the conversion raises when the integer rounds to 2^1024 or more. *)
Definition float_limit : Z := 2 ^ 1024 - 2 ^ 970.

Definition to_float (z : Z) : M float :=
  if (float_limit <=? Z.abs z)%Z then raise OverflowError
  else ret (Py.float_of_int z).

(** [x / n] for a float [x] and an [int] [n]: a nonzero integer never
    converts to a zero, so the test for the zero divisor is on the integer. *)
Definition div_int (x : float) (n : Z) : M float :=
  y <- to_float n ;;
  if (n =? 0)%Z then raise ZeroDivisionError else ret (x / y)%float.

(** [sum(xs)], as the interpreter of the run adds. *)
Definition builtin_sum (xs : list float) : M float :=
  fun e w => (Ok (Py.sum (summation e) xs), w).

(** [x / len(xs)]: the divisor is zero for the empty list only. *)
Definition div_len (x : float) (xs : list float) : M float :=
  match xs with
  | [] => raise ZeroDivisionError
  | _ :: _ => ret (x / Py.len xs)%float
  end.

(** [a / b] for two [int]s (true division): the operands are not converted;
    the exact quotient is rounded once. *)
Definition int_truediv (a b : Z) : M float :=
  if (b =? 0)%Z then raise ZeroDivisionError
  else
    match Py.int_quotient a b with
    | Some q => ret q
    | None => raise OverflowError
    end.

(** [text[:n]] where [text] is [None] or a string: [None] has no items. *)
Definition slice_to (n : nat) (text : option string) : M string :=
  match text with
  | Some s => ret (Py.prefix n s)
  | None => raise TypeError
  end.

(** [x * n] for a float [x] and an [int] [n]. *)
Definition mul_int (x : float) (n : Z) : M float :=
  y <- to_float n ;; ret (x * y)%float.

(** [(end - start) * 1000]. *)
Definition elapsed_ms (r : invocation) : float :=
  ((t_end r - t_start r) * Py.float_of_int 1000)%float.

Definition succeeded (r : invocation) : bool := (returncode (completed r) =? 0)%Z.

(** [for i in items: state = body(i, state)], where the body may [return]:
    [inl v] leaves the enclosing function with [v], [inr s] goes on. *)
Fixpoint for_each {I S R} (items : list I) (body : I -> S -> M (R + S)) (s : S)
  : M (R + S) :=
  match items with
  | [] => ret (inr s)
  | i :: rest =>
      r <- body i s ;;
      match r with
      | inl v => ret (inl v)
      | inr s' => for_each rest body s'
      end
  end.

(** [for i in items: state = body(i, state)] with no [return] inside. *)
Fixpoint for_all {I S} (items : list I) (body : I -> S -> M S) (s : S) : M S :=
  match items with
  | [] => ret s
  | i :: rest => s' <- body i s ;; for_all rest body s'
  end.

Definition nl : string := String (ascii_of_nat 10) EmptyString.
Definition exe : string := "target\release\pyhc.exe".

(** ** benchmark_runner.py *)

Module BenchmarkRunner.

(** The body of the loop of [run_benchmark], lines 10-25. *)
Definition trial (test_file : string) (i : nat) (times : list float)
  : M (list float) :=
  r <- timed_run test_file ;;
  if succeeded r then
    let elapsed := elapsed_ms r in
    print [Lit "  Run "; Int (Z.of_nat i + 1); Lit ": "; Fixed 2 elapsed; Lit "ms"] ;;
    ret (times ++ [elapsed])
  else
    print [Lit "  Run "; Int (Z.of_nat i + 1); Lit ": ERROR"] ;;
    print [Lit (Py.str (stderr (completed r)))] ;;
    ret times.

(** [run_benchmark(test_file, iterations)], lines 5-32. *)
Definition run_benchmark (test_file : string) (iterations : Z)
  : M (option float * option float * option float) :=
  times <- for_all (Py.range iterations) (trial test_file) [] ;;
  match times with
  | [] => ret (None, None, None)
  | _ :: _ =>
      total <- builtin_sum times ;;
      avg <- div_len total times ;;
      ret (Some avg, Py.min times, Py.max times)
  end.

(** [if avg: print(...)], lines 44-48 and 57-61.  Formatting [None] with
    [.2f] is a [TypeError]. *)
Definition print_results (r : option float * option float * option float)
  : M unit :=
  let '(avg, min_t, max_t) := r in
  if Py.truthy_opt avg then
    print [Lit (nl ++ "Results:")] ;;
    match avg, min_t, max_t with
    | Some a, Some lo, Some hi =>
        print [Lit "  Average: "; Fixed 2 a; Lit "ms"] ;;
        print [Lit "  Min:     "; Fixed 2 lo; Lit "ms"] ;;
        print [Lit "  Max:     "; Fixed 2 hi; Lit "ms"]
    | _, _, _ => raise TypeError
    end
  else ret tt.

(** One benchmark of the script: its heading, the trials, the results. *)
Definition benchmark (heading : list string) (test_file : string) : M unit :=
  for_all heading (fun l _ => print [Lit l]) tt ;;
  r <- run_benchmark test_file 3 ;;
  print_results r.

Definition heading1 : list string :=
  [ nl ++ "Benchmark: Pure Arithmetic (10,000 iterations)";
    "- Operations: add, mul, sub in a loop";
    "- Expected: JIT kicks in after 1000 iterations";
    Py.str_mul "-" 60 ]%string.

Definition heading2 : list string :=
  [ nl ++ Py.str_mul "=" 60;
    "Benchmark: Simple Function (1100 calls)";
    "- Function: add(10, 20)";
    "- Expected: JIT compiles after 1000 calls";
    Py.str_mul "-" 60 ]%string.

(** The script, lines 34-67. *)
Definition main : M unit :=
  print [Lit (Py.str_mul "=" 60)] ;;
  print [Lit "Pyhyeon JIT Performance Benchmark"] ;;
  print [Lit (Py.str_mul "=" 60)] ;;
  benchmark heading1 "tests/programs/benchmark_arithmetic.pyh" ;;
  benchmark heading2 "tests/programs/jit_simple.pyh" ;;
  print [Lit (nl ++ Py.str_mul "=" 60)] ;;
  print [Lit "Note: JIT compilation happens at runtime after 1000 executions."] ;;
  print [Lit "The first 1000 iterations run in interpreter mode, then switch to"] ;;
  print [Lit "native code execution for the remaining iterations."] ;;
  print [Lit (Py.str_mul "=" 60)].

End BenchmarkRunner.

(** ** compare_jit.py

    Only [run_test] computes; the rest of the script prints fixed text around
    two calls of it and does not look at what they return. *)

Module CompareJit.

(** The body of the loop of [run_test], lines 23-38: a failed run leaves the
    function with [None], after its error text was cut and printed. *)
Definition trial (test_file : string) (i : nat) (times : list float)
  : M (option float + list float) :=
  r <- timed_run test_file ;;
  if succeeded r then
    let elapsed := elapsed_ms r in
    print [Lit "  Run "; Int (Z.of_nat i + 1); Lit ": "; Fixed 2 elapsed; Lit "ms"] ;;
    ret (inr (times ++ [elapsed]))
  else
    text <- slice_to 100 (stderr (completed r)) ;;
    print [Lit "  ERROR: "; Lit text] ;;
    ret (inl None).

(** [run_test(test_file, description)], lines 16-46. *)
Definition run_test (test_file description : string) : M (option float) :=
  print [Lit nl; Lit (Py.str_mul "=" 60)] ;;
  print [Lit description] ;;
  print [Lit (Py.str_mul "=" 60)] ;;
  r <- for_each (Py.range 5) (trial test_file) [] ;;
  match r with
  | inl v => ret v
  | inr times =>
      match times with
      | [] => ret None
      | _ :: _ =>
          total <- builtin_sum times ;;
          avg <- div_len total times ;;
          print [Lit nl; Lit "  Average: "; Fixed 2 avg; Lit "ms"] ;;
          match Py.min times, Py.max times with
          | Some lo, Some hi =>
              print [Lit "  Min:     "; Fixed 2 lo; Lit "ms"] ;;
              print [Lit "  Max:     "; Fixed 2 hi; Lit "ms"] ;;
              ret (Some avg)
          | _, _ => raise ValueError
          end
      end
  end.

(** The description of a test: three lines in one string. *)
Definition description1 : string :=
  ("Test 1: Pure Arithmetic (10,000 iterations)" ++ nl ++
   "  - Pure arithmetic operations" ++ nl ++
   "  - JIT compilation: YES")%string.

Definition description2 : string :=
  ("Test 2: Simple Function (1,100 calls)" ++ nl ++
   "  - Simple add(a, b) function" ++ nl ++
   "  - JIT compilation: YES")%string.

(** The text before the tests, lines 48-55. *)
Definition preamble : list string :=
  [ Py.str_mul "=" 80;
    Py.str_mul " " 20 ++ "Pyhyeon JIT Performance Analysis";
    Py.str_mul "=" 80;
    nl ++ "현재 JIT 상태:";
    "  - JIT 임계값: 1000회 실행";
    "  - 지원 명령어: 상수, 로컬변수, 산술(+,-,*" ++ "), 비교(==,<), 분기";
    "  - 미지원: 함수 호출(Call), 메서드 호출, 컬렉션 등" ]%string.

(** The text after the tests, lines 73-91. *)
Definition closing : list string :=
  [ nl ++ Py.str_mul "=" 80;
    "분석:";
    Py.str_mul "=" 80;
    nl ++ "1. JIT가 동작하는 케이스:";
    "   - 처음 1000번은 인터프리터 모드 실행";
    "   - 1001번째부터는 JIT 컴파일된 네이티브 코드 실행";
    "   - 위 테스트에서 후반부는 JIT 네이티브 코드로 실행됨";
    nl ++ "2. 성능 특성:";
    "   - 인터프리터: 매 명령어마다 match/switch 오버헤드";
    "   - JIT: 직접 x86-64 네이티브 코드 실행";
    "   - 예상 속도 향상: 5-10배 (hot path에 대해)";
    nl ++ "3. 현재 한계:";
    "   - 재귀 함수: JIT 불가 (Call 명령어 미지원)";
    "   - 복잡한 연산: JIT 불가 (많은 명령어 미지원)";
    "   - 위 한계는 향후 확장으로 개선 가능";
    nl ++ Py.str_mul "=" 80 ]%string.

(** The script, lines 48-91: [avg1] and [avg2] are not used after the calls. *)
Definition main : M unit :=
  for_all preamble (fun l _ => print [Lit l]) tt ;;
  avg1 <- run_test "tests/programs/benchmark_arithmetic.pyh" description1 ;;
  avg2 <- run_test "tests/programs/jit_simple.pyh" description2 ;;
  for_all closing (fun l _ => print [Lit l]) tt.

End CompareJit.

(** ** detailed_benchmark.py *)

Module DetailedBenchmark.

(** The body of the loop of [run_test], lines 17-31. *)
Definition trial (test_file : string) (i : nat) (times : list float)
  : M (option float + list float) :=
  r <- timed_run test_file ;;
  if succeeded r then ret (inr (times ++ [elapsed_ms r]))
  else
    text <- slice_to 100 (stderr (completed r)) ;;
    print [Lit "ERROR: "; Lit text] ;;
    ret (inl None).

(** [run_test(test_file, name)], lines 14-34. *)
Definition run_test (test_file name : string) : M (option float) :=
  r <- for_each (Py.range 5) (trial test_file) [] ;;
  match r with
  | inl v => ret v
  | inr times =>
      total <- builtin_sum times ;;
      avg <- div_len total times ;;
      ret (Some avg)
  end.

(** An entry of [tests]: file, name, iteration count. *)
Definition test_case : Type := string * string * Z.

(** An entry of [results]: name, iteration count, average. *)
Definition result_row : Type := string * Z * float.

(** Lines 45-48. *)
Definition tests : list test_case :=
  [ ("tests/programs/benchmark_arithmetic.pyh", "10K iterations", 10000%Z);
    ("tests/programs/benchmark_long.pyh", "100K iterations", 100000%Z) ]%string.

(** [x / n * 1000], the time per iteration in microseconds (lines 60, 79, 80). *)
Definition per_iteration (x : float) (n : Z) : M float :=
  q <- div_int x n ;; mul_int q 1000.

(** Lines 64-66: the split is made for more than 1000 iterations only. *)
Definition regime_split (iterations : Z) : option (Z * Z) :=
  if (iterations >? 1000)%Z then
    let interp_iters := 1000%Z in
    let jit_iters := (iterations - 1000)%Z in
    Some (interp_iters, jit_iters)
  else None.

(** [jit_iters/iterations*100], inside line 68. *)
Definition jit_percent (jit_iters iterations : Z) : M float :=
  q <- int_truediv jit_iters iterations ;; mul_int q 100.

(** Lines 64-68. *)
Definition print_split (iterations : Z) : M unit :=
  match regime_split iterations with
  | Some (interp_iters, jit_iters) =>
      print [Lit "  Interpreter: "; Int interp_iters; Lit " iterations"] ;;
      pct <- jit_percent jit_iters iterations ;;
      print [Lit "  JIT native:  "; Int jit_iters; Lit " iterations (";
             Fixed 1 pct; Lit "%)"]
  | None => ret tt
  end.

(** The body of the loop over [tests], lines 52-68. *)
Definition report_case (t : test_case) (results : list result_row)
  : M (list result_row) :=
  let '(test_file, name, iterations) := t in
  print [Lit nl; Lit name; Lit ":"] ;;
  print [Lit (Py.str_mul "-" 80)] ;;
  avg <- run_test test_file name ;;
  match avg with
  | Some a =>
      if Py.truthy a then
        let results := results ++ [(name, iterations, a)] in
        print [Lit "  Average time: "; Fixed 2 a; Lit "ms"] ;;
        time_per_iter <- per_iteration a iterations ;;
        print [Lit "  Per iteration: "; Fixed 4 time_per_iter; Lit "μs"] ;;
        print_split iterations ;;
        ret results
      else ret results
  | None => ret results
  end.

(** What lines 85-92 find out: a speedup, with its percentage, or none. *)
Inductive verdict :=
| Speedup (improvement : float)
| NoImprovement.

(** Lines 85-86 and 89: the test [per_iter1 > per_iter2] and the percentage. *)
Definition compare (per_iter1 per_iter2 : float) : M verdict :=
  if Py.gtb per_iter1 per_iter2 then
    d <- div (per_iter1 - per_iter2)%float per_iter1 ;;
    improvement <- mul_int d 100 ;;
    ret (Speedup improvement)
  else ret NoImprovement.

(** Lines 87-88 and 90-92. *)
Definition print_verdict (v : verdict) : M unit :=
  match v with
  | Speedup improvement =>
      print [Lit nl; Lit "Speedup with more JIT usage: "; Fixed 1 improvement; Lit "%"] ;;
      print [Lit "This shows JIT is working! Longer runs benefit more from native code."]
  | NoImprovement =>
      print [Lit nl; Lit "No improvement detected. This suggests:"] ;;
      print [Lit "  1. JIT compilation overhead dominates for this workload"] ;;
      print [Lit "  2. Or the test is too simple to benefit from JIT"]
  end.

(** Lines 74-92. *)
Definition analysis (results : list result_row) : M unit :=
  match results with
  | (name1, iters1, time1) :: (name2, iters2, time2) :: _ =>
      per_iter1 <- per_iteration time1 iters1 ;;
      per_iter2 <- per_iteration time2 iters2 ;;
      print [Lit nl; Lit "10K iterations:  "; Fixed 4 per_iter1; Lit "μs per iteration"] ;;
      print [Lit "100K iterations: "; Fixed 4 per_iter2; Lit "μs per iteration"] ;;
      v <- compare per_iter1 per_iter2 ;;
      print_verdict v
  | _ => ret tt
  end.

(** The script for a given list of tests, lines 36-97. *)
Definition main_with (ts : list test_case) : M unit :=
  print [Lit (Py.str_mul "=" 80)] ;;
  print [Lit "JIT Performance Benchmark - Detailed Analysis"] ;;
  print [Lit (Py.str_mul "=" 80)] ;;
  print [Lit nl; Lit "JIT Configuration:"] ;;
  print [Lit "  Threshold: 1000 executions"] ;;
  print [Lit "  After 1000 calls: function is compiled to native x86-64 code"] ;;
  print [Lit (Py.str_mul "=" 80)] ;;
  results <- for_all ts report_case [] ;;
  print [Lit nl; Lit (Py.str_mul "=" 80)] ;;
  print [Lit "Analysis:"] ;;
  print [Lit (Py.str_mul "=" 80)] ;;
  analysis results ;;
  print [Lit nl; Lit (Py.str_mul "=" 80)] ;;
  print [Lit "Note: For accurate measurement, the 100K test should show lower"] ;;
  print [Lit "per-iteration time due to higher percentage of JIT-compiled code."] ;;
  print [Lit (Py.str_mul "=" 80)].

Definition main : M unit := main_with tests.

End DetailedBenchmark.

(** * Vocabulary of the properties *)

(** A decoded float that is a NaN. *)
Definition sf_is_nan (f : spec_float) : bool :=
  match f with
  | S754_nan => true
  | _ => false
  end.

Definition no_nan (xs : list float) : Prop :=
  forall t, In t xs -> is_nan t = false.

Definition lower_bound (m : float) (xs : list float) : Prop :=
  forall t, In t xs -> (m <=? t)%float = true.

Definition upper_bound (m : float) (xs : list float) : Prop :=
  forall t, In t xs -> (t <=? m)%float = true.

(** The trial set of [n] invocations on [file] when [k] invocations were
    made before: what the oracle answers to the calls [k], ..., [k + n - 1]. *)
Definition trial_set (e : env) (file : string) (k n : nat) : list invocation :=
  map (fun j => e j file) (seq k n).

(** The elapsed times of the successful outcomes of a trial set, in order. *)
Definition samples (outs : list invocation) : list float :=
  map elapsed_ms (filter succeeded outs).

(** The average as the scripts compute it: the sum, as the interpreter of
    the run adds, divided by the count. *)
Definition mean (e : env) (xs : list float) : float :=
  (Py.sum (summation e) xs / Py.float_of_int (Z.of_nat (List.length xs)))%float.

(** What [run_benchmark] prints for the trial of index [i]. *)
Definition runner_report_of (i : nat) (r : invocation) : list line :=
  if succeeded r then
    [[Lit "  Run "; Int (Z.of_nat i + 1); Lit ": "; Fixed 2 (elapsed_ms r); Lit "ms"]]
  else
    [[Lit "  Run "; Int (Z.of_nat i + 1); Lit ": ERROR"];
     [Lit (Py.str (stderr (completed r)))]].

Fixpoint runner_reports (i : nat) (outs : list invocation) : list line :=
  match outs with
  | [] => []
  | r :: rest => runner_report_of i r ++ runner_reports (S i) rest
  end.

(** The outcomes of a trial set up to its first failure, the failure included. *)
Fixpoint until_failure (outs : list invocation) : list invocation :=
  match outs with
  | [] => []
  | r :: rest => if succeeded r then r :: until_failure rest else [r]
  end.

(** What a failed trial makes of a [run_test]: [None] is returned once the
    error text is printed, and cutting an error text that is [None] raises. *)
Definition failed_trial (r : invocation) : result (option float) :=
  match stderr (completed r) with
  | Some _ => Ok None
  | None => Raise TypeError
  end.

(** The first failed outcome of a trial set, if there is one. *)
Fixpoint first_failure (outs : list invocation) : option invocation :=
  match outs with
  | [] => None
  | r :: rest => if succeeded r then first_failure rest else Some r
  end.

(** What the first failed trial of a trial set makes of a [run_test]. *)
Definition failure_result (outs : list invocation) : result (option float) :=
  match first_failure outs with
  | Some r => failed_trial r
  | None => Ok None
  end.

(** What the two [run_test] return on a trial set: the average when all its
    trials succeeded, and what its first failed trial makes of it otherwise. *)
Definition run_test_result (e : env) (outs : list invocation)
  : result (option float) :=
  if forallb succeeded outs then Ok (Some (mean e (samples outs)))
  else failure_result outs.


(** The result of a loop that is left by [return v]. *)
Definition returned {R S : Type} (r : result R) : result (R + S) :=
  match r with
  | Ok v => Ok (inl v)
  | Raise x => Raise x
  end.

(** The error record of a failed trial, after [label]; none when the error
    text is [None]. *)
Definition error_record (label : string) (r : invocation) : list line :=
  match stderr (completed r) with
  | Some text => [[Lit label; Lit (Py.prefix 100 text)]]
  | None => []
  end.

(** What [run_test] of compare_jit.py prints for the trial of index [i]. *)
Definition cmp_report_of (i : nat) (r : invocation) : list line :=
  if succeeded r then
    [[Lit "  Run "; Int (Z.of_nat i + 1); Lit ": "; Fixed 2 (elapsed_ms r); Lit "ms"]]
  else error_record "  ERROR: " r.

Fixpoint cmp_reports (i : nat) (outs : list invocation) : list line :=
  match outs with
  | [] => []
  | r :: rest => cmp_report_of i r ++ cmp_reports (S i) rest
  end.

(** The three closing records of [run_test] of compare_jit.py. *)
Definition cmp_summary (e : env) (ts : list float) : list line :=
  match Py.min ts, Py.max ts with
  | Some lo, Some hi =>
      [ [Lit nl; Lit "  Average: "; Fixed 2 (mean e ts); Lit "ms"];
        [Lit "  Min:     "; Fixed 2 lo; Lit "ms"];
        [Lit "  Max:     "; Fixed 2 hi; Lit "ms"] ]
  | _, _ => []
  end.

(** What [run_test] of detailed_benchmark.py prints for a trial. *)
Definition det_report_of (r : invocation) : list line :=
  if succeeded r then [] else error_record "ERROR: " r.

Definition det_reports (outs : list invocation) : list line :=
  flat_map det_report_of outs.
(** The native share of [total] units as line 68 computes it:
    [(total - 1000) / total], rounded once. *)
Definition native_fraction (total : Z) : float :=
  SF2Prim (SFdiv prec emax (Py.int_operand (total - 1000)) (Py.int_operand total)).

(** ** Scripted oracles for the examples *)

Definition w0 : world := mkWorld 0 [].

(** A run that exits with status 0 after [ms] milliseconds. *)
Definition ok_after (ms : float) : invocation :=
  mkInvocation 0 (ms / 1000)%float (mkCompleted 0 "").

(** A run that exits with status 1 after one millisecond. *)
Definition failure : invocation :=
  mkInvocation 0 (1 / 1000)%float (mkCompleted 1 "boom").

(** The oracle that answers the calls 0, 1, ... with [script], whatever the
    file, and with [failure] once the script is used up. *)
Definition scripted_on (how : Py.summation) (script : list invocation) : env :=
  mkEnv how (fun k _ => nth k script failure).

(** The same under the interpreter that adds plainly. *)
Definition scripted (script : list invocation) : env :=
  scripted_on Py.Plain script.
(** ** Looking for a text in the output *)


(** ** Vocabulary of the whole scripts *)

(** What benchmark_runner.py prints after the trials of a benchmark whose
    successful elapsed times are [ts]. *)
Definition runner_results (e : env) (ts : list float) : list line :=
  match ts with
  | [] => []
  | x :: r =>
      if Py.truthy (mean e ts) then
        [ [Lit (nl ++ "Results:")];
          [Lit "  Average: "; Fixed 2 (mean e ts); Lit "ms"];
          [Lit "  Min:     "; Fixed 2 (fold_left Py.min_step r x); Lit "ms"];
          [Lit "  Max:     "; Fixed 2 (fold_left Py.max_step r x); Lit "ms"] ]
      else []
  end.

(** One benchmark of benchmark_runner.py in the output. *)
Definition runner_section (e : env) (heading : list string)
    (outs : list invocation) : list line :=
  map (fun l => [Lit l]) heading ++ runner_reports 0 outs
    ++ runner_results e (samples outs).


(** [xs] is [ys] with some items left out, the order kept. *)
Inductive subseq {A : Type} : list A -> list A -> Prop :=
| subseq_nil : subseq [] []
| subseq_skip (y : A) (xs ys : list A) : subseq xs ys -> subseq xs (y :: ys)
| subseq_take (y : A) (xs ys : list A) : subseq xs ys -> subseq (y :: xs) (y :: ys).
(** An oracle whose first five runs take the smallest positive time the
    clock can show, and whose later runs end before they start. *)
Definition backwards_clock : env :=
  mkEnv Py.Plain
    (fun k _ =>
       if Nat.ltb k 5
       then mkInvocation 0 (Z.ldexp 1 (-1074)%Z) (mkCompleted 0 "")
       else mkInvocation 1 0 (mkCompleted 0 "")).

(** ** Exact values

    Every finite binary64 number is a multiple of 2^-1074, the least positive
    one: its value counted in that unit is an integer. *)

(** The value of a float in units of 2^-1074; none for an infinity or a NaN. *)
Definition exact (x : float) : option Z :=
  match Prim2SF x with
  | S754_zero _ => Some 0%Z
  | S754_finite s m e => Some (cond_Zopp s (Zpos m) * 2 ^ (e + 1074))%Z
  | _ => None
  end.

(** The exact sum of the values of a list of floats, in the same unit. *)
Fixpoint exact_total (xs : list float) : option Z :=
  match xs with
  | [] => Some 0%Z
  | x :: r =>
      match exact x, exact_total r with
      | Some a, Some t => Some (a + t)%Z
      | _, _ => None
      end
  end.

(** [z], computed from [x] and [y], is what [f] gives on their values: the
    operation did not round. *)
Definition exactly (f : Z -> Z -> Z) (x y z : float) : bool :=
  match exact x, exact y, exact z with
  | Some a, Some b, Some c => (c =? f a b)%Z
  | _, _, _ => false
  end.

(** No addition of the plain summation of [xs] from [acc] rounds. *)
Fixpoint plain_exact (acc : float) (xs : list float) : bool :=
  match xs with
  | [] => true
  | x :: r => (exactly Z.add acc x (acc + x)%float && plain_exact (acc + x)%float r)%bool
  end.

(** No operation of [Py.cs_add] rounds. *)
Definition cs_add_exact (total : Py.compensated) (x : float) : bool :=
  let h := Py.hi total in
  let l := Py.lo total in
  let t := (h + x)%float in
  (exactly Z.add h x t &&
   if (abs x <=? abs h)%float
   then exactly Z.sub h t (h - t)%float
        && exactly Z.add (h - t)%float x ((h - t) + x)%float
        && exactly Z.add l ((h - t) + x)%float (l + ((h - t) + x))%float
   else exactly Z.sub x t (x - t)%float
        && exactly Z.add (x - t)%float h ((x - t) + h)%float
        && exactly Z.add l ((x - t) + h)%float (l + ((x - t) + h))%float)%bool.

(** No operation of the compensated summation of [xs] from [total] rounds,
    the last addition of the compensation included. *)
Fixpoint compensated_exact (total : Py.compensated) (xs : list float) : bool :=
  match xs with
  | [] =>
      if (negb (Py.lo total =? 0)%float && is_finite (Py.lo total))%bool
      then exactly Z.add (Py.hi total) (Py.lo total) (Py.hi total + Py.lo total)%float
      else true
  | x :: r => (cs_add_exact total x && compensated_exact (Py.cs_add total x) r)%bool
  end.

(** No operation of [sum(xs)] rounds. *)
Definition sum_exact (how : Py.summation) (xs : list float) : bool :=
  match how with
  | Py.Plain => plain_exact (Py.float_of_int 0) xs
  | Py.Compensated =>
      match xs with
      | [] => true
      | x :: r =>
          (exactly Z.add (Py.float_of_int 0) x (Py.float_of_int 0 + x)%float
           && compensated_exact
                (Py.mkCompensated (Py.float_of_int 0 + x)%float 0%float) r)%bool
      end
  end.

(** Nothing rounds in [sum(xs) / len(xs)]: no operation of the sum, and the
    quotient times the count is the sum. *)
Definition no_rounding (e : env) (xs : list float) : bool :=
  (sum_exact (summation e) xs &&
   match exact (Py.sum (summation e) xs), exact (mean e xs) with
   | Some s, Some q => (Z.of_nat (List.length xs) * q =? s)%Z
   | _, _ => false
   end)%bool.

(** * Properties *)

(** ** The order of binary64 numbers

    The primitive comparisons are specified by [SFcompare] on the decoded
    float; away from NaN it is a total preorder. *)

Module FloatOrder.

Ltac cmp_cases :=
  repeat match goal with
  | |- context [Z.compare ?a ?b] => destruct (Z.compare_spec a b)
  | |- context [Pos.compare_cont Eq ?a ?b] =>
      change (Pos.compare_cont Eq a b) with (Pos.compare a b);
      destruct (Pos.compare_spec a b)
  | H : context [Z.compare ?a ?b] |- _ => destruct (Z.compare_spec a b)
  | H : context [Pos.compare_cont Eq ?a ?b] |- _ =>
      change (Pos.compare_cont Eq a b) with (Pos.compare a b) in H;
      destruct (Pos.compare_spec a b)
  end.

Ltac by_cases :=
  cmp_cases; simpl in *; subst; try discriminate; try reflexivity; try lia.

Lemma SFeqb_refl f : SFeqb f f = negb (sf_is_nan f).
Proof.
  unfold SFeqb.
  destruct f as [[]|[]| |[] m e]; simpl; try reflexivity;
    rewrite Z.compare_refl; change (Pos.compare_cont Eq m m) with (Pos.compare m m);
    rewrite Pos.compare_refl; reflexivity.
Qed.

Lemma SFleb_total f g :
  sf_is_nan f = false -> sf_is_nan g = false ->
  SFltb f g = false -> SFleb g f = true.
Proof.
  unfold SFltb, SFleb.
  destruct f as [[]|[]| |[] m e], g as [[]|[]| |[] m' e']; simpl;
    try discriminate; try reflexivity; intros _ _; by_cases.
Qed.

Lemma SFltb_leb f g : SFltb f g = true -> SFleb f g = true.
Proof.
  unfold SFltb, SFleb. destruct (SFcompare f g) as [[]|]; congruence.
Qed.

Lemma SFleb_trans f g h :
  SFleb f g = true -> SFleb g h = true -> SFleb f h = true.
Proof.
  unfold SFleb.
  destruct f as [[]|[]| |[] m e], g as [[]|[]| |[] m' e'],
           h as [[]|[]| |[] m'' e''];
    simpl; try discriminate; try reflexivity; intros H1 H2; by_cases.
Qed.

Lemma SFltb_irrefl f : SFltb f f = false.
Proof.
  unfold SFltb.
  destruct f as [[]|[]| |[] m e]; simpl; try reflexivity;
    rewrite Z.compare_refl; change (Pos.compare_cont Eq m m) with (Pos.compare m m);
    rewrite Pos.compare_refl; reflexivity.
Qed.

Open Scope float_scope.

Lemma is_nan_spec x : is_nan x = sf_is_nan (Prim2SF x).
Proof.
  unfold is_nan. rewrite eqb_spec, SFeqb_refl. apply negb_involutive.
Qed.

Lemma leb_refl x : is_nan x = false -> (x <=? x) = true.
Proof.
  rewrite is_nan_spec, leb_spec. intros H.
  apply SFleb_total; trivial. apply SFltb_irrefl.
Qed.

Lemma leb_total x y :
  is_nan x = false -> is_nan y = false -> (x <? y) = false -> (y <=? x) = true.
Proof.
  rewrite !is_nan_spec, ltb_spec, leb_spec. apply SFleb_total.
Qed.

Lemma ltb_leb x y : (x <? y) = true -> (x <=? y) = true.
Proof. rewrite ltb_spec, leb_spec. apply SFltb_leb. Qed.

Lemma leb_trans x y z :
  (x <=? y) = true -> (y <=? z) = true -> (x <=? z) = true.
Proof. rewrite !leb_spec. apply SFleb_trans. Qed.

Lemma ltb_irrefl x : (x <? x) = false.
Proof. rewrite ltb_spec. apply SFltb_irrefl. Qed.

(** A positive float is not a zero. *)
Lemma pos_not_zero x : (0 <? x) = true -> (x =? 0) = false.
Proof.
  rewrite ltb_spec, eqb_spec. unfold SFltb, SFeqb.
  change (Prim2SF 0) with (S754_zero false).
  destruct (Prim2SF x) as [[]|[]| |[] m e]; simpl; congruence.
Qed.

(** [x - x] is never positive: it is the zero, or a NaN for an infinity. *)
Lemma sub_diag_not_pos x : (0 <? x - x) = false.
Proof.
  rewrite ltb_spec, sub_spec. unfold SFltb, SF64sub.
  change (Prim2SF 0) with (S754_zero false).
  destruct (Prim2SF x) as [[]|[]| |s m e]; try reflexivity.
  unfold SFsub. rewrite Z.min_id.
  unfold shl_align. rewrite Z.sub_diag. simpl fst.
  try rewrite Z.sub_diag. reflexivity.
Qed.

End FloatOrder.

(** ** Rounding to nearest

    What the rounding of the binary64 operations does to a mantissa that is
    not negative: enough to bound a quotient and a product from above. *)

Module Rounding.
Open Scope Z_scope.

Lemma fexp_eq (e : Z) : fexp prec emax e = Z.max (e - 53) (-1074).
Proof. reflexivity. Qed.

Lemma fexp_mono (a b : Z) : a <= b -> fexp prec emax a <= fexp prec emax b.
Proof. rewrite !fexp_eq. lia. Qed.

Lemma digits2_log2 (p : positive) : Zpos (digits2_pos p) = Z.log2 (Zpos p) + 1.
Proof.
  induction p as [p IH|p IH|]; cbn [digits2_pos].
  - rewrite Pos2Z.inj_succ, IH.
    change (Zpos p~1) with (2 * Zpos p + 1). rewrite Z.log2_succ_double by lia. lia.
  - rewrite Pos2Z.inj_succ, IH.
    change (Zpos p~0) with (2 * Zpos p). rewrite Z.log2_double by lia. lia.
  - reflexivity.
Qed.

(** The number of binary digits of a positive integer. *)
Lemma Zdigits2_spec (m : Z) :
  0 < m -> 2 ^ (Zdigits2 m - 1) <= m < 2 ^ Zdigits2 m.
Proof.
  destruct m as [|p|p]; try lia. intros _. cbn [Zdigits2].
  rewrite digits2_log2. pose proof (Z.log2_spec (Zpos p) ltac:(lia)) as H.
  replace (Z.log2 (Zpos p) + 1 - 1) with (Z.log2 (Zpos p)) by lia.
  replace (Z.log2 (Zpos p) + 1) with (Z.succ (Z.log2 (Zpos p))) by lia. exact H.
Qed.

Lemma Zdigits2_nonneg (m : Z) : 0 <= Zdigits2 m.
Proof. destruct m; cbn; lia. Qed.

Lemma Zdigits2_pos (m : Z) : 0 < m -> 0 < Zdigits2 m.
Proof. destruct m; cbn; lia. Qed.

(** Fewer than [2 ^ k] means at most [k] digits, and conversely. *)
Lemma Zdigits2_le (m k : Z) : 0 <= m -> 0 <= k -> m < 2 ^ k -> Zdigits2 m <= k.
Proof.
  intros Hm Hk H. destruct (Z.eq_dec m 0) as [->|Hne]; [cbn; lia|].
  pose proof (Zdigits2_spec m ltac:(lia)) as [Hlo _].
  destruct (Z.le_gt_cases (Zdigits2 m) k) as [|Hgt]; trivial.
  pose proof (Z.pow_le_mono_r 2 k (Zdigits2 m - 1) ltac:(lia) ltac:(lia)). lia.
Qed.

Lemma Zdigits2_ge (m k : Z) : 0 <= k -> 2 ^ k <= m -> k < Zdigits2 m.
Proof.
  intros Hk H.
  assert (0 < 2 ^ k) by (apply Z.pow_pos_nonneg; lia).
  pose proof (Zdigits2_spec m ltac:(lia)) as [_ Hhi].
  destruct (Z.lt_ge_cases k (Zdigits2 m)) as [|Hge]; trivial.
  pose proof (Z.pow_le_mono_r 2 (Zdigits2 m) k ltac:(lia) ltac:(lia)). lia.
Qed.

Lemma Zdigits2_mono (a b : Z) : 0 <= a <= b -> Zdigits2 a <= Zdigits2 b.
Proof.
  intros [Ha Hab]. destruct (Z.eq_dec b 0) as [->|Hb].
  - replace a with 0 by lia. lia.
  - apply Zdigits2_le; trivial; [apply Zdigits2_nonneg|].
    pose proof (Zdigits2_spec b ltac:(lia)). lia.
Qed.

(** ** Shifting to the right *)

(** The value held by a record is at most [B]: its mantissa is below [B], or
    is [B] with nothing after it. *)
Definition below (B : Z) (mrs : shr_record) : Prop :=
  shr_m mrs < B \/ (shr_m mrs = B /\ shr_r mrs = false /\ shr_s mrs = false).

Lemma shr_1_m (mrs : shr_record) :
  0 <= shr_m mrs -> shr_m (shr_1 mrs) = shr_m mrs / 2.
Proof.
  destruct mrs as [m r s]. cbn [shr_m]. intros Hm.
  destruct m as [|[p|p|]|p]; cbn [shr_1 shr_m]; try lia.
  - reflexivity.
  - change (Zpos p~1) with (2 * Zpos p + 1).
    apply Z.div_unique with 1; lia.
  - change (Zpos p~0) with (2 * Zpos p).
    apply Z.div_unique with 0; lia.
  - reflexivity.
Qed.

Lemma shr_1_below (B : Z) (mrs : shr_record) :
  0 <= shr_m mrs -> below (2 * B) mrs -> below B (shr_1 mrs).
Proof.
  destruct mrs as [m r s]. unfold below. cbn [shr_m shr_r shr_s]. intros Hm H.
  destruct m as [|[p|p|]|p]; cbn [shr_1 shr_m shr_r shr_s]; try lia.
  - destruct H as [H|(H & -> & ->)];
      [left; lia | right; repeat split; try reflexivity; lia].
  - change (Zpos p~0) with (2 * Zpos p) in H.
    destruct H as [H|(H & -> & ->)];
      [left; lia | right; repeat split; try reflexivity; lia].
Qed.

Lemma iter_shr_m (p : positive) : forall mrs : shr_record,
  0 <= shr_m mrs -> shr_m (iter_pos shr_1 p mrs) = shr_m mrs / 2 ^ Zpos p.
Proof.
  induction p as [p IH|p IH|]; intros mrs Hm; cbn [iter_pos].
  - assert (H1 : 0 <= shr_m (shr_1 mrs))
      by (rewrite shr_1_m by lia; apply Z.div_pos; lia).
    assert (H2 : 0 <= shr_m (iter_pos shr_1 p (shr_1 mrs)))
      by (rewrite IH by lia; apply Z.div_pos; [lia | apply Z.pow_pos_nonneg; lia]).
    rewrite IH, IH, shr_1_m by lia.
    assert (Hp : 0 < 2 ^ Zpos p) by (apply Z.pow_pos_nonneg; lia).
    rewrite !Z.div_div by lia. f_equal.
    replace (Zpos p~1) with (1 + (Zpos p + Zpos p)) by lia.
    rewrite !Z.pow_add_r by lia. lia.
  - assert (H2 : 0 <= shr_m (iter_pos shr_1 p mrs))
      by (rewrite IH by lia; apply Z.div_pos; [lia | apply Z.pow_pos_nonneg; lia]).
    rewrite IH, IH by lia.
    assert (Hp : 0 < 2 ^ Zpos p) by (apply Z.pow_pos_nonneg; lia).
    rewrite !Z.div_div by lia. f_equal.
    replace (Zpos p~0) with (Zpos p + Zpos p) by lia.
    rewrite !Z.pow_add_r by lia. lia.
  - apply shr_1_m. exact Hm.
Qed.

Lemma iter_shr_below (p : positive) : forall (B : Z) (mrs : shr_record),
  0 <= shr_m mrs -> below (2 ^ Zpos p * B) mrs -> below B (iter_pos shr_1 p mrs).
Proof.
  induction p as [p IH|p IH|]; intros B mrs Hm H; cbn [iter_pos].
  - assert (Hp : 0 < 2 ^ Zpos p) by (apply Z.pow_pos_nonneg; lia).
    assert (H1 : 0 <= shr_m (shr_1 mrs))
      by (rewrite shr_1_m by lia; apply Z.div_pos; lia).
    assert (H2 : 0 <= shr_m (iter_pos shr_1 p (shr_1 mrs)))
      by (rewrite iter_shr_m by lia; apply Z.div_pos; lia).
    apply IH; trivial. apply IH; trivial. apply shr_1_below; trivial.
    replace (2 * (2 ^ Zpos p * (2 ^ Zpos p * B))) with (2 ^ Zpos p~1 * B); trivial.
    replace (Zpos p~1) with (1 + (Zpos p + Zpos p)) by lia.
    rewrite !Z.pow_add_r by lia. lia.
  - assert (Hp : 0 < 2 ^ Zpos p) by (apply Z.pow_pos_nonneg; lia).
    assert (H2 : 0 <= shr_m (iter_pos shr_1 p mrs))
      by (rewrite iter_shr_m by lia; apply Z.div_pos; lia).
    apply IH; trivial. apply IH; trivial.
    replace (2 ^ Zpos p * (2 ^ Zpos p * B)) with (2 ^ Zpos p~0 * B); trivial.
    replace (Zpos p~0) with (Zpos p + Zpos p) by lia.
    rewrite !Z.pow_add_r by lia. lia.
  - apply shr_1_below; trivial.
Qed.


Lemma record_m (m : Z) (l : location) : shr_m (shr_record_of_loc m l) = m.
Proof. destruct l as [|[]]; reflexivity. Qed.

Lemma record_below (B m : Z) (l : location) :
  m < B \/ (m = B /\ l = loc_Exact) -> below B (shr_record_of_loc m l).
Proof.
  unfold below. rewrite record_m. intros [H|[H ->]]; [left; exact H|].
  right. repeat split; trivial.
Qed.

Lemma below_le (B : Z) (mrs : shr_record) : below B mrs -> shr_m mrs <= B.
Proof. unfold below. lia. Qed.

(** Rounding to nearest takes the mantissa or the next one, and stays under
    a bound that the value is under. *)
Lemma round_bounds (mrs : shr_record) :
  shr_m mrs <= round_nearest_even (shr_m mrs) (loc_of_shr_record mrs) <= shr_m mrs + 1.
Proof.
  destruct mrs as [m [] []]; cbn [shr_m loc_of_shr_record round_nearest_even];
    try destruct (Z.even m); lia.
Qed.

Lemma round_below (B : Z) (mrs : shr_record) :
  below B mrs -> round_nearest_even (shr_m mrs) (loc_of_shr_record mrs) <= B.
Proof.
  intros [H|(H & Hr & Hs)].
  - pose proof (round_bounds mrs). lia.
  - destruct mrs as [m r s]. cbn [shr_m shr_r shr_s] in *. subst. cbn. lia.
Qed.

(** Dropping [n] digits of a number that has more. *)
Lemma Zdigits2_shift (m n : Z) :
  0 <= n -> 0 < m / 2 ^ n -> Zdigits2 (m / 2 ^ n) = Zdigits2 m - n.
Proof.
  intros Hn Hq.
  assert (Hp : 0 < 2 ^ n) by (apply Z.pow_pos_nonneg; lia).
  assert (Hm : 2 ^ n <= m).
  { destruct (Z.lt_ge_cases m (2 ^ n)) as [Hlt|]; trivial.
    destruct (Z.lt_ge_cases m 0).
    - pose proof (Z.div_lt_upper_bound m (2 ^ n) 0 Hp ltac:(lia)). lia.
    - rewrite Z.div_small in Hq by lia. lia. }
  pose proof (Zdigits2_spec m ltac:(lia)) as [Hlo Hhi].
  pose proof (Zdigits2_ge m n Hn Hm) as Hd.
  assert (H1 : m / 2 ^ n < 2 ^ (Zdigits2 m - n)).
  { apply Z.div_lt_upper_bound; trivial.
    rewrite <- Z.pow_add_r by lia. replace (n + (Zdigits2 m - n)) with (Zdigits2 m) by lia.
    exact Hhi. }
  assert (H2 : 2 ^ (Zdigits2 m - n - 1) <= m / 2 ^ n).
  { apply Z.div_le_lower_bound; trivial.
    rewrite <- Z.pow_add_r by lia.
    replace (n + (Zdigits2 m - n - 1)) with (Zdigits2 m - 1) by lia. exact Hlo. }
  pose proof (Zdigits2_le (m / 2 ^ n) (Zdigits2 m - n) ltac:(lia) ltac:(lia) H1).
  pose proof (Zdigits2_ge (m / 2 ^ n) (Zdigits2 m - n - 1) ltac:(lia) H2).
  lia.
Qed.

(** One normalisation: the mantissa is shifted to the exponent that its
    number of digits asks for. *)
Lemma shr_fexp_run (m e : Z) (l : location) :
  0 <= m -> e <= fexp prec emax (Zdigits2 m + e) ->
  exists mrs : shr_record,
    shr_fexp prec emax m e l = (mrs, fexp prec emax (Zdigits2 m + e))
    /\ shr_m mrs = m / 2 ^ (fexp prec emax (Zdigits2 m + e) - e)
    /\ forall B : Z,
         below (2 ^ (fexp prec emax (Zdigits2 m + e) - e) * B) (shr_record_of_loc m l) ->
         below B mrs.
Proof.
  intros Hm He. unfold shr_fexp, shr.
  set (e' := fexp prec emax (Zdigits2 m + e)) in *.
  destruct (e' - e) as [|p|p] eqn:En; try lia.
  - exists (shr_record_of_loc m l). replace e' with e by lia.
    rewrite record_m, Z.div_1_r. split; [reflexivity|]. split; [reflexivity|].
    intros B. rewrite Z.pow_0_r, Z.mul_1_l. trivial.
  - exists (iter_pos shr_1 p (shr_record_of_loc m l)).
    replace (e + Zpos p) with e' by lia.
    split; [reflexivity|]. split.
    + rewrite iter_shr_m by (rewrite record_m; exact Hm). rewrite record_m. reflexivity.
    + intros B. apply iter_shr_below. rewrite record_m. exact Hm.
Qed.

(** What [binary_round_aux] gives for a mantissa that is not negative and
    has digits enough: a zero, a finite number in canonical form or an
    infinity, of the sign asked for; and a bound [N * 2 ^ E] on the value
    rounded is a bound on the result. *)
Lemma binary_round_aux_spec (s : bool) (m e : Z) (l : location) :
  0 <= m -> e <= fexp prec emax (Zdigits2 m + e) ->
  exists m' e' : Z,
    0 <= m'
    /\ binary_round_aux prec emax s m e l
       = match m' with
         | Z0 => S754_zero s
         | Zpos p => if e' <=? emax - prec then S754_finite s p e' else S754_infinity s
         | Zneg _ => S754_nan
         end
    /\ (0 < m' -> fexp prec emax (Zdigits2 m' + e') = e')
    /\ forall N E : Z,
         0 < N < 2 ^ 53 -> -1074 <= E -> e <= E ->
         m < N * 2 ^ (E - e) \/ (m = N * 2 ^ (E - e) /\ l = loc_Exact) ->
         e' <= E /\ m' <= N * 2 ^ (E - e').
Proof.
  intros Hm He.
  destruct (shr_fexp_run m e l Hm He) as (mrs1 & Hrun1 & Hm1 & Hb1).
  set (e1 := fexp prec emax (Zdigits2 m + e)) in *.
  set (m1' := round_nearest_even (shr_m mrs1) (loc_of_shr_record mrs1)).
  assert (Hp1 : 0 < 2 ^ (e1 - e)) by (apply Z.pow_pos_nonneg; lia).
  assert (Hm1n : 0 <= shr_m mrs1) by (rewrite Hm1; apply Z.div_pos; lia).
  pose proof (round_bounds mrs1) as Hr. fold m1' in Hr.
  assert (He1 : e1 <= fexp prec emax (Zdigits2 m1' + e1)).
  { destruct (Z.eq_dec (shr_m mrs1) 0) as [Hz|Hnz].
    - assert (Hlt : m < 2 ^ (e1 - e)).
      { destruct (Z.lt_ge_cases m (2 ^ (e1 - e))) as [|Hge]; trivial.
        pose proof (Z.div_le_lower_bound m (2 ^ (e1 - e)) 1 Hp1 ltac:(lia)). lia. }
      pose proof (Zdigits2_le m (e1 - e) Hm ltac:(lia) Hlt) as Hd.
      unfold e1 in *. rewrite !fexp_eq in *. lia.
    - assert (Hd : Zdigits2 (shr_m mrs1) = Zdigits2 m - (e1 - e)).
      { rewrite Hm1. apply Zdigits2_shift; [lia|]. rewrite <- Hm1. lia. }
      pose proof (Zdigits2_mono (shr_m mrs1) m1' ltac:(lia)) as Hmono.
      pose proof (fexp_mono (Zdigits2 m + e) (Zdigits2 m1' + e1) ltac:(lia)) as Hf.
      fold e1 in Hf. exact Hf. }
  assert (Hm1' : 0 <= m1') by lia.
  destruct (shr_fexp_run m1' e1 loc_Exact Hm1' He1) as (mrs2 & Hrun2 & Hm2 & Hb2).
  set (e2 := fexp prec emax (Zdigits2 m1' + e1)) in *.
  assert (Hp2 : 0 < 2 ^ (e2 - e1)) by (apply Z.pow_pos_nonneg; lia).
  exists (shr_m mrs2), e2.
  split; [rewrite Hm2; apply Z.div_pos; lia|]. split; [|split].
  - unfold binary_round_aux. rewrite Hrun1. fold m1'. rewrite Hrun2. reflexivity.
  - intros Hpos.
    assert (Hd : Zdigits2 (shr_m mrs2) = Zdigits2 m1' - (e2 - e1)).
    { rewrite Hm2. apply Zdigits2_shift; [lia|]. rewrite <- Hm2. exact Hpos. }
    rewrite Hd. replace (Zdigits2 m1' - (e2 - e1) + e2) with (Zdigits2 m1' + e1) by lia.
    reflexivity.
  - intros N E HN HE HeE Hbound.
    assert (Hpow : forall x y : Z, 0 <= x -> 0 <= y -> N * 2 ^ (x + y) = 2 ^ x * (N * 2 ^ y))
      by (intros x y Hx Hy; rewrite Z.pow_add_r by lia; lia).
    assert (Hlim : forall x : Z, 0 <= x -> N * 2 ^ x < 2 ^ (53 + x)).
    { intros x Hx. rewrite Z.pow_add_r by lia.
      pose proof (Z.pow_pos_nonneg 2 x ltac:(lia) Hx). nia. }
    assert (He1E : e1 <= E).
    { pose proof (Hlim (E - e) ltac:(lia)).
      pose proof (Zdigits2_le m (53 + (E - e)) Hm ltac:(lia) ltac:(lia)).
      unfold e1. rewrite fexp_eq. lia. }
    assert (Hbelow1 : below (N * 2 ^ (E - e1)) mrs1).
    { apply Hb1. rewrite <- Hpow by lia. replace (e1 - e + (E - e1)) with (E - e) by lia.
      apply record_below. exact Hbound. }
    pose proof (round_below _ _ Hbelow1) as Hle1. fold m1' in Hle1.
    assert (He2E : e2 <= E).
    { pose proof (Hlim (E - e1) ltac:(lia)).
      pose proof (Zdigits2_le m1' (53 + (E - e1)) Hm1' ltac:(lia) ltac:(lia)).
      unfold e2. rewrite fexp_eq. lia. }
    split; [exact He2E|]. apply below_le. apply Hb2.
    rewrite <- Hpow by lia. replace (e2 - e1 + (E - e2)) with (E - e1) by lia.
    apply record_below.
    destruct (Z.eq_dec m1' (N * 2 ^ (E - e1))) as [Heq|Hne];
      [right; split; [exact Heq | reflexivity] | left; lia].
Qed.


(** A decoded float that is a zero or a finite number in canonical form, not
    negative, of value at most [N * 2 ^ E]. *)
Definition at_most (N E : Z) (f : spec_float) : Prop :=
  match f with
  | S754_zero s => s = false
  | S754_finite s m e =>
      s = false /\ fexp prec emax (Zdigits2 (Zpos m) + e) = e
      /\ e <= E /\ Zpos m <= N * 2 ^ (E - e)
  | _ => False
  end.

Lemma round_at_most (m e : Z) (l : location) (N E : Z) :
  0 <= m -> e <= fexp prec emax (Zdigits2 m + e) ->
  0 < N < 2 ^ 53 -> -1074 <= E <= 971 -> e <= E ->
  m < N * 2 ^ (E - e) \/ (m = N * 2 ^ (E - e) /\ l = loc_Exact) ->
  at_most N E (binary_round_aux prec emax false m e l).
Proof.
  intros Hm He HN HE HeE Hbound.
  destruct (binary_round_aux_spec false m e l Hm He) as (m' & e' & Hm' & -> & Hcan & Hb).
  destruct (Hb N E HN ltac:(lia) HeE Hbound) as [He' Hle].
  destruct m' as [|p|p]; [reflexivity| |lia].
  replace (e' <=? emax - prec) with true
    by (symmetry; apply Z.leb_le; change (emax - prec) with 971; lia).
  cbn [at_most]. repeat split; trivial. apply Hcan. lia.
Qed.

Lemma at_most_valid (N E : Z) (f : spec_float) :
  E <= 971 -> at_most N E f -> valid_binary f = true.
Proof.
  intros HE. destruct f as [s|s| |s m e]; cbn [at_most]; try tauto; try reflexivity.
  intros (_ & Hcan & He & _).
  unfold valid_binary, SpecFloat.valid_binary, bounded, canonical_mantissa.
  apply andb_true_iff. split.
  - apply Z.eqb_eq. exact Hcan.
  - apply Z.leb_le. change (emax - prec) with 971. lia.
Qed.

Lemma at_most_nonneg (N E : Z) (f : spec_float) :
  at_most N E f -> SFleb (S754_zero false) f = true.
Proof.
  destruct f as [s|s| |s m e]; cbn [at_most]; try tauto.
  intros (-> & _). reflexivity.
Qed.

Lemma Zdigits2_mul_pow2 (m k : Z) :
  0 < m -> 0 <= k -> Zdigits2 (m * 2 ^ k) = Zdigits2 m + k.
Proof.
  intros Hm Hk.
  assert (Hp : 0 < 2 ^ k) by (apply Z.pow_pos_nonneg; lia).
  pose proof (Zdigits2_spec m Hm) as [Hlo Hhi].
  pose proof (Zdigits2_pos m Hm) as Hd.
  assert (H1 : m * 2 ^ k < 2 ^ (Zdigits2 m + k)) by (rewrite Z.pow_add_r by lia; nia).
  assert (H2 : 2 ^ (Zdigits2 m + k - 1) <= m * 2 ^ k).
  { replace (Zdigits2 m + k - 1) with (Zdigits2 m - 1 + k) by lia.
    rewrite Z.pow_add_r by lia. nia. }
  pose proof (Zdigits2_le (m * 2 ^ k) (Zdigits2 m + k) ltac:(nia) ltac:(lia) H1).
  pose proof (Zdigits2_ge (m * 2 ^ k) (Zdigits2 m + k - 1) ltac:(lia) H2).
  lia.
Qed.

(** A float of value at most [N * 2 ^ E] is below or equal to the float of
    that value. *)
Lemma at_most_leb (N E : Z) (f : spec_float) (mc : positive) (ec : Z) :
  0 < N -> at_most N E f -> ec <= E -> Zpos mc = N * 2 ^ (E - ec) ->
  fexp prec emax (Zdigits2 (Zpos mc) + ec) = ec ->
  SFleb f (S754_finite false mc ec) = true.
Proof.
  intros HN Hf Hec Hmc Hcan.
  destruct f as [s|s| |s m e]; cbn [at_most] in Hf; try tauto.
  destruct Hf as (-> & Hcan' & He & Hm).
  assert (Hle : e <= ec).
  { destruct (Z.le_gt_cases e ec) as [|Hgt]; trivial. exfalso.
    assert (Hp : 0 < 2 ^ (e - ec)) by (apply Z.pow_pos_nonneg; lia).
    assert (Hp' : 0 < 2 ^ (E - e)) by (apply Z.pow_pos_nonneg; lia).
    assert (Hbig : Zpos m * 2 ^ (e - ec) <= Zpos mc).
    { rewrite Hmc. replace (E - ec) with (E - e + (e - ec)) by lia.
      rewrite Z.pow_add_r by lia. nia. }
    pose proof (Zdigits2_mono (Zpos m * 2 ^ (e - ec)) (Zpos mc) ltac:(nia)) as Hd.
    rewrite Zdigits2_mul_pow2 in Hd by lia.
    pose proof (fexp_mono (Zdigits2 (Zpos m) + e) (Zdigits2 (Zpos mc) + ec) ltac:(lia)).
    lia. }
  unfold SFleb, SFcompare.
  destruct (Z.compare_spec e ec) as [Heq|Hlt|Hgt]; [|reflexivity|lia].
  subst ec. change (Pos.compare_cont Eq m mc) with (Pos.compare m mc).
  destruct (Pos.compare_spec m mc) as [H|H|H]; try reflexivity.
  exfalso. assert (Zpos mc < Zpos m) by lia. lia.
Qed.

(** The core of the division of a positive integer by a greater one: a
    mantissa with digits enough, of value below one. *)
Lemma div_core_run (a b : positive) :
  Zpos a < Zpos b ->
  exists (q e : Z) (l : location),
    SFdiv_core_binary prec emax (Zpos a) 0 (Zpos b) 0 = (q, e, l)
    /\ 0 <= q /\ e <= fexp prec emax (Zdigits2 q + e) /\ e <= 0 /\ q < 2 ^ (0 - e).
Proof.
  intros Hab. unfold SFdiv_core_binary.
  set (d1 := Zdigits2 (Zpos a)). set (d2 := Zdigits2 (Zpos b)).
  pose proof (Zdigits2_mono (Zpos a) (Zpos b) ltac:(lia)) as Hd. fold d1 d2 in Hd.
  pose proof (Zdigits2_spec (Zpos a) ltac:(lia)) as [Ha _]. fold d1 in Ha.
  pose proof (Zdigits2_spec (Zpos b) ltac:(lia)) as [_ Hb]. fold d2 in Hb.
  pose proof (Zdigits2_pos (Zpos a) ltac:(lia)) as Hd1. fold d1 in Hd1.
  replace (d1 + 0 - (d2 + 0)) with (d1 - d2) by lia. change (0 - 0) with 0.
  set (e' := Z.min (fexp prec emax (d1 - d2)) 0).
  assert (He' : e' = Z.max (d1 - d2 - 53) (-1074)) by (unfold e'; rewrite fexp_eq; lia).
  assert (Hneg : e' < 0) by lia.
  destruct (0 - e') as [|s|s] eqn:Es; try lia.
  rewrite Z.shiftl_mul_pow2 by lia.
  assert (Hps : 0 < 2 ^ Zpos s) by (apply Z.pow_pos_nonneg; lia).
  pose proof (Z_div_mod (Zpos a * 2 ^ Zpos s) (Zpos b) ltac:(lia)) as Hdm.
  destruct (Z.div_eucl (Zpos a * 2 ^ Zpos s) (Zpos b)) as [q r].
  destruct Hdm as [Heq Hr].
  exists q, e', (new_location (Zpos b) r).
  assert (Hq0 : 0 <= q) by nia.
  assert (Hq1 : q < 2 ^ Zpos s) by nia.
  split; [reflexivity|]. split; [exact Hq0|]. split; [|split; [lia | rewrite Es; exact Hq1]].
  rewrite fexp_eq.
  destruct (Z.eq_dec e' (-1074)) as [Hmin|Hnot]; [lia|].
  assert (Hs : Zpos s = 53 + d2 - d1) by lia.
  assert (Hbig : 2 ^ 52 <= q).
  { destruct (Z.le_gt_cases (2 ^ 52) q) as [|Hlt]; trivial. exfalso.
    assert (H1 : 2 ^ (d1 - 1) * 2 ^ Zpos s = 2 ^ 52 * 2 ^ d2).
    { rewrite <- !Z.pow_add_r by lia. f_equal. lia. }
    assert (H52 : 0 < 2 ^ 52) by reflexivity.
    nia. }
  pose proof (Zdigits2_ge q 52 ltac:(lia) Hbig). lia.
Qed.


(** ** Signs

    A mantissa that is not negative rounds to a float that is not negative;
    so do the quotient and the product of a float that is not negative by a
    positive finite one. *)







(** ** The native share

    The quotient of a positive integer by a greater one, rounded once, and
    its product by 100. *)

Lemma quotient_at_most (a b : positive) :
  Zpos a < Zpos b ->
  at_most 1 0 (SFdiv prec emax (S754_finite false a 0) (S754_finite false b 0)).
Proof.
  intros Hab. unfold SFdiv.
  destruct (div_core_run a b Hab) as (q & e & l & -> & Hq & He & He0 & Hlt).
  cbn [xorb]. apply round_at_most; trivial; lia.
Qed.

Lemma hundred_at_most (r : spec_float) :
  at_most 1 0 r ->
  at_most 25 2 (SFmul prec emax r (S754_finite false 7036874417766400 (-46))).
Proof.
  destruct r as [s|s| |s m e]; cbn [at_most]; try tauto.
  - intros ->. reflexivity.
  - intros (-> & Hcan & He & Hm). cbn [SFmul xorb].
    rewrite Z.mul_1_l in Hm.
    assert (Hp : 0 < 2 ^ (0 - e)) by (apply Z.pow_pos_nonneg; lia).
    assert (Hmc : 7036874417766400 = 25 * 2 ^ 48) by reflexivity.
    assert (Hprod : Zpos (m * 7036874417766400) = Zpos m * (25 * 2 ^ 48))
      by (rewrite Pos2Z.inj_mul, Hmc; reflexivity).
    rewrite Hprod.
    apply round_at_most; try lia.
    + assert (Hd : Zdigits2 (Zpos m) + 52 <= Zdigits2 (Zpos m * (25 * 2 ^ 48))).
      { rewrite <- (Zdigits2_mul_pow2 (Zpos m) 52) by lia.
        assert (H52 : 2 ^ 52 <= 25 * 2 ^ 48) by (apply Z.leb_le; reflexivity).
        apply Zdigits2_mono. split.
        - apply Z.mul_nonneg_nonneg; [lia | apply Z.pow_nonneg; lia].
        - apply Z.mul_le_mono_nonneg_l; [lia | exact H52]. }
      pose proof (Zdigits2_pos (Zpos m) ltac:(lia)).
      rewrite fexp_eq. lia.
    + assert (Hb : 25 * 2 ^ (2 - (e + -46)) = 2 ^ (0 - e) * (25 * 2 ^ 48)).
      { replace (2 - (e + -46)) with ((0 - e) + 48) by lia.
        rewrite Z.pow_add_r by lia. lia. }
      rewrite Hb.
      destruct (Z.eq_dec (Zpos m) (2 ^ (0 - e))) as [Heq|Hne].
      * right. split; [rewrite Heq; reflexivity | reflexivity].
      * left. apply Z.mul_lt_mono_pos_r; [reflexivity | lia].
Qed.

(** [a / b] for [0 < a < b], and the percentage made of it: the quotient
    is a float from 0 to 1 and the percentage a float from 0 to 100, whatever
    the size of the integers. *)
Lemma proper_fraction (a b : Z) :
  0 < a < b ->
  exists q : float,
    Py.int_quotient a b = Some q
    /\ (0 <=? q)%float = true /\ (q <=? 1)%float = true
    /\ (0 <=? q * 100)%float = true /\ (q * 100 <=? 100)%float = true.
Proof.
  intros [Ha Hab].
  destruct a as [|a|a]; try lia. destruct b as [|b|b]; try lia.
  pose proof (quotient_at_most a b Hab) as Hr.
  unfold Py.int_quotient. cbn [Py.int_operand].
  set (r := SFdiv prec emax (S754_finite false a 0) (S754_finite false b 0)) in *.
  exists (SF2Prim r).
  assert (Hq : Prim2SF (SF2Prim r) = r)
    by (apply Prim2SF_SF2Prim, (at_most_valid 1 0); [lia | exact Hr]).
  pose proof (hundred_at_most r Hr) as Hh.
  assert (Hp : Prim2SF (SF2Prim r * 100)
               = SFmul prec emax r (S754_finite false 7036874417766400 (-46)))
    by (rewrite mul_spec, Hq; reflexivity).
  assert (Hpv : valid_binary (SFmul prec emax r (S754_finite false 7036874417766400 (-46)))
                = true) by (apply (at_most_valid 25 2); [lia | exact Hh]).
  split; [destruct r as [s|s| |s m e]; cbn [at_most] in Hr; try tauto; reflexivity|].
  rewrite !leb_spec, Hq, Hp.
  change (Prim2SF 0) with (S754_zero false).
  change (Prim2SF 1) with (S754_finite false 4503599627370496 (-52)).
  change (Prim2SF 100) with (S754_finite false 7036874417766400 (-46)).
  split; [apply (at_most_nonneg 1 0), Hr|].
  split; [apply (at_most_leb 1 0); trivial; try reflexivity; lia|].
  split; [apply (at_most_nonneg 25 2), Hh|].
  apply (at_most_leb 25 2); trivial; try reflexivity; lia.
Qed.

End Rounding.

(** ** [min] and [max] of a list without NaN *)

Module PyFacts.
Import FloatOrder.
Open Scope float_scope.

Lemma fold_min r : forall seen cur,
  In cur seen -> lower_bound cur seen -> no_nan (seen ++ r) ->
  In (fold_left Py.min_step r cur) (seen ++ r) /\
  lower_bound (fold_left Py.min_step r cur) (seen ++ r).
Proof.
  induction r as [|x r IH]; intros seen cur Hin Hlb Hnan; simpl.
  - rewrite app_nil_r. split; assumption.
  - replace (seen ++ x :: r) with ((seen ++ [x]) ++ r) in *
      by (rewrite <- app_assoc; reflexivity).
    assert (Hx : is_nan x = false)
      by (apply Hnan; rewrite !in_app_iff; left; right; left; reflexivity).
    assert (Hc : is_nan cur = false)
      by (apply Hnan; rewrite !in_app_iff; left; left; assumption).
    apply IH; trivial; unfold Py.min_step; destruct (x <? cur) eqn:E.
    + rewrite in_app_iff; right; left; reflexivity.
    + rewrite in_app_iff; left; assumption.
    + intros t Ht. apply in_app_iff in Ht as [Ht|[<-|[]]].
      * apply leb_trans with cur; [apply ltb_leb; assumption | apply Hlb; assumption].
      * apply leb_refl; assumption.
    + intros t Ht. apply in_app_iff in Ht as [Ht|[<-|[]]].
      * apply Hlb; assumption.
      * apply leb_total; assumption.
Qed.

Lemma fold_max r : forall seen cur,
  In cur seen -> upper_bound cur seen -> no_nan (seen ++ r) ->
  In (fold_left Py.max_step r cur) (seen ++ r) /\
  upper_bound (fold_left Py.max_step r cur) (seen ++ r).
Proof.
  induction r as [|x r IH]; intros seen cur Hin Hub Hnan; simpl.
  - rewrite app_nil_r. split; assumption.
  - replace (seen ++ x :: r) with ((seen ++ [x]) ++ r) in *
      by (rewrite <- app_assoc; reflexivity).
    assert (Hx : is_nan x = false)
      by (apply Hnan; rewrite !in_app_iff; left; right; left; reflexivity).
    assert (Hc : is_nan cur = false)
      by (apply Hnan; rewrite !in_app_iff; left; left; assumption).
    apply IH; trivial; unfold Py.max_step, Py.gtb; destruct (cur <? x) eqn:E.
    + rewrite in_app_iff; right; left; reflexivity.
    + rewrite in_app_iff; left; assumption.
    + intros t Ht. apply in_app_iff in Ht as [Ht|[<-|[]]].
      * apply leb_trans with cur; [apply Hub; assumption | apply ltb_leb; assumption].
      * apply leb_refl; assumption.
    + intros t Ht. apply in_app_iff in Ht as [Ht|[<-|[]]].
      * apply Hub; assumption.
      * apply leb_total; assumption.
Qed.

(** [min(xs)] is an item of [xs] below every item of [xs]. *)
Lemma min_spec xs :
  xs <> [] -> no_nan xs ->
  exists m, Py.min xs = Some m /\ In m xs /\ lower_bound m xs.
Proof.
  destruct xs as [|x r]; [congruence|]. intros _ Hnan.
  exists (fold_left Py.min_step r x). split; [reflexivity|].
  apply (fold_min r [x] x).
  - left; reflexivity.
  - intros t [<-|[]]. apply leb_refl, Hnan. left; reflexivity.
  - exact Hnan.
Qed.

(** [max(xs)] is an item of [xs] above every item of [xs]. *)
Lemma max_spec xs :
  xs <> [] -> no_nan xs ->
  exists m, Py.max xs = Some m /\ In m xs /\ upper_bound m xs.
Proof.
  destruct xs as [|x r]; [congruence|]. intros _ Hnan.
  exists (fold_left Py.max_step r x). split; [reflexivity|].
  apply (fold_max r [x] x).
  - left; reflexivity.
  - intros t [<-|[]]. apply leb_refl, Hnan. left; reflexivity.
  - exact Hnan.
Qed.

End PyFacts.

(** ** The loops of the three scripts

    Each loop is characterised once: the value it yields, the number of
    invocations it makes and the records it prints, as functions of the trial
    set the oracle answers with. *)

Module LoopFacts.
Import BenchmarkRunner.

Lemma runner_trial_run (e : env) (file : string) i k times out :
  trial file i times e (mkWorld k out) =
  (Ok (times ++ samples [e k file]),
   mkWorld (S k) (out ++ runner_report_of i (e k file))).
Proof.
  unfold trial, bind, timed_run, samples, runner_report_of. simpl.
  destruct (succeeded (e k file)); simpl.
  - reflexivity.
  - unfold print, ret. simpl. rewrite <- app_assoc, app_nil_r. reflexivity.
Qed.

Lemma runner_trials_run (e : env) (file : string) n : forall i k times out,
  for_all (seq i n) (trial file) times e (mkWorld k out) =
  (Ok (times ++ samples (trial_set e file k n)),
   mkWorld (k + n) (out ++ runner_reports i (trial_set e file k n))).
Proof.
  induction n as [|n IH]; intros i k times out.
  - simpl. unfold ret, samples. simpl. rewrite !app_nil_r, Nat.add_0_r. reflexivity.
  - simpl. unfold bind. rewrite runner_trial_run, IH.
    unfold samples, trial_set. simpl.
    rewrite <- !app_assoc, Nat.add_succ_r.
    destruct (succeeded (e k file)); reflexivity.
Qed.

Lemma run_benchmark_run (e : env) (file : string) (n : Z) k out :
  let outs := trial_set e file k (Z.to_nat n) in
  BenchmarkRunner.run_benchmark file n e (mkWorld k out) =
  (Ok match samples outs with
      | [] => (None, None, None)
      | _ :: _ => (Some (mean e (samples outs)), Py.min (samples outs),
                   Py.max (samples outs))
      end,
   mkWorld (k + Z.to_nat n) (out ++ runner_reports 0 outs)).
Proof.
  intros outs. unfold run_benchmark, bind, Py.range.
  rewrite runner_trials_run. fold outs. simpl app.
  destruct (samples outs); reflexivity.
Qed.

Lemma slice_to_run (text : option string) (e : env) (w : world) :
  slice_to 100 text e w
  = (match text with
     | Some s => Ok (Py.prefix 100 s)
     | None => Raise TypeError
     end, w).
Proof. destruct text; reflexivity. Qed.

Lemma samples_cons r outs :
  samples (r :: outs) = (if succeeded r then [elapsed_ms r] else []) ++ samples outs.
Proof. unfold samples. simpl. destruct (succeeded r); reflexivity. Qed.

Lemma cmp_trial_run (e : env) file i k times out :
  CompareJit.trial file i times e (mkWorld k out) =
  (if succeeded (e k file) then Ok (inr (times ++ [elapsed_ms (e k file)]))
   else returned (failed_trial (e k file)),
   mkWorld (S k) (out ++ cmp_report_of i (e k file))).
Proof.
  unfold CompareJit.trial, bind, timed_run, cmp_report_of, error_record, failed_trial.
  cbn [calls stdout].
  destruct (succeeded (e k file)); [reflexivity|].
  rewrite slice_to_run. destruct (stderr (completed (e k file))).
  - reflexivity.
  - cbn [returned]. rewrite app_nil_r. reflexivity.
Qed.

Lemma cmp_trials_run (e : env) file n : forall i k times out,
  let outs := trial_set e file k n in
  for_each (seq i n) (CompareJit.trial file) times e (mkWorld k out) =
  (if forallb succeeded outs then Ok (inr (times ++ samples outs))
   else returned (failure_result outs),
   mkWorld (k + List.length (until_failure outs))
           (out ++ cmp_reports i (until_failure outs))).
Proof.
  induction n as [|n IH]; intros i k times out; simpl.
  - unfold ret. rewrite !app_nil_r, Nat.add_0_r. reflexivity.
  - unfold bind. rewrite cmp_trial_run.
    unfold trial_set, failure_result in *. simpl. rewrite samples_cons.
    destruct (succeeded (e k file)); simpl.
    + rewrite IH. simpl. rewrite <- !app_assoc, Nat.add_succ_r. reflexivity.
    + rewrite Nat.add_1_r, app_nil_r.
      destruct (failed_trial (e k file)); reflexivity.
Qed.

Lemma det_trial_run (e : env) file i k times out :
  DetailedBenchmark.trial file i times e (mkWorld k out) =
  (if succeeded (e k file) then Ok (inr (times ++ [elapsed_ms (e k file)]))
   else returned (failed_trial (e k file)),
   mkWorld (S k) (out ++ det_report_of (e k file))).
Proof.
  unfold DetailedBenchmark.trial, bind, timed_run, det_report_of, error_record,
    failed_trial.
  cbn [calls stdout].
  destruct (succeeded (e k file)).
  - unfold ret. rewrite app_nil_r. reflexivity.
  - rewrite slice_to_run. destruct (stderr (completed (e k file))).
    + reflexivity.
    + cbn [returned]. rewrite app_nil_r. reflexivity.
Qed.

Lemma det_trials_run (e : env) file n : forall i k times out,
  let outs := trial_set e file k n in
  for_each (seq i n) (DetailedBenchmark.trial file) times e (mkWorld k out) =
  (if forallb succeeded outs then Ok (inr (times ++ samples outs))
   else returned (failure_result outs),
   mkWorld (k + List.length (until_failure outs))
           (out ++ det_reports (until_failure outs))).
Proof.
  induction n as [|n IH]; intros i k times out; simpl.
  - unfold ret. rewrite !app_nil_r, Nat.add_0_r. reflexivity.
  - unfold bind. rewrite det_trial_run.
    unfold trial_set, det_reports, failure_result in *. simpl. rewrite samples_cons.
    destruct (succeeded (e k file)) eqn:E; simpl.
    + rewrite IH. simpl. rewrite <- !app_assoc, Nat.add_succ_r. reflexivity.
    + rewrite Nat.add_1_r, app_nil_r.
      destruct (failed_trial (e k file)); reflexivity.
Qed.

(** When all of a trial set succeeded, its samples are all its elapsed times. *)
Lemma samples_all outs :
  forallb succeeded outs = true -> samples outs = map elapsed_ms outs.
Proof.
  unfold samples. induction outs as [|r outs IH]; simpl; trivial.
  destruct (succeeded r); simpl; [|discriminate]. intros H. rewrite IH; trivial.
Qed.

Lemma until_failure_all outs :
  forallb succeeded outs = true -> until_failure outs = outs.
Proof.
  induction outs as [|r outs IH]; simpl; trivial.
  destruct (succeeded r); simpl; [|discriminate]. intros H. rewrite IH; trivial.
Qed.

Lemma det_run_test_run (e : env) file name k out :
  let outs := trial_set e file k 5 in
  DetailedBenchmark.run_test file name e (mkWorld k out) =
  (run_test_result e outs,
   mkWorld (k + List.length (until_failure outs))
           (out ++ det_reports (until_failure outs))).
Proof.
  intros outs. unfold DetailedBenchmark.run_test, bind, Py.range, run_test_result.
  change (Z.to_nat 5) with 5%nat. rewrite det_trials_run. fold outs.
  destruct (forallb succeeded outs) eqn:E.
  - simpl app. rewrite (samples_all outs E). reflexivity.
  - destruct (failure_result outs); reflexivity.
Qed.

(** What a failed trial makes of a [run_test] is never an average. *)
Lemma failure_result_no_average (outs : list invocation) (avg : float) :
  failure_result outs <> Ok (Some avg).
Proof.
  unfold failure_result, failed_trial.
  destruct (first_failure outs) as [r|]; [|discriminate].
  destruct (stderr (completed r)); discriminate.
Qed.

Lemma run_test_result_all (e : env) (outs : list invocation) :
  forallb succeeded outs = true ->
  run_test_result e outs = Ok (Some (mean e (samples outs))).
Proof. unfold run_test_result. intros ->. reflexivity. Qed.

Lemma samples_nonempty outs :
  forallb succeeded outs = true -> outs <> [] -> samples outs <> [].
Proof.
  intros H Hne. rewrite samples_all by assumption.
  destruct outs; [congruence | discriminate].
Qed.

Lemma cmp_run_test_run (e : env) file description k out :
  let outs := trial_set e file k 5 in
  CompareJit.run_test file description e (mkWorld k out) =
  (run_test_result e outs,
   mkWorld (k + List.length (until_failure outs))
           (out ++ [[Lit nl; Lit (Py.str_mul "=" 60)]; [Lit description];
                    [Lit (Py.str_mul "=" 60)]]
                ++ cmp_reports 0 (until_failure outs)
                ++ (if forallb succeeded outs then cmp_summary e (samples outs) else []))).
Proof.
  intros outs. unfold CompareJit.run_test, bind, print, Py.range, run_test_result.
  cbn [calls stdout]. change (Z.to_nat 5) with 5%nat.
  rewrite cmp_trials_run. fold outs.
  assert (Hne : outs <> []) by discriminate. clearbody outs.
  destruct (forallb succeeded outs) eqn:E.
  - pose proof (samples_nonempty outs E Hne) as Hs.
    cbn [app]. destruct (samples outs) as [|t ts]; [congruence|].
    unfold builtin_sum, div_len, ret, cmp_summary, mean, Py.len.
    cbn [Py.min Py.max calls stdout].
    rewrite <- !app_assoc. reflexivity.
  - rewrite app_nil_r, <- !app_assoc.
    destruct (failure_result outs); reflexivity.
Qed.
End LoopFacts.

(** ** Aggregation *)

Module Aggregation.
Import LoopFacts PyFacts.

Lemma exactly_true (f : Z -> Z -> Z) (x y z : float) :
  exactly f x y z = true ->
  exists a b, exact x = Some a /\ exact y = Some b /\ exact z = Some (f a b).
Proof.
  unfold exactly.
  destruct (exact x) as [a|], (exact y) as [b|], (exact z) as [c|]; try discriminate.
  intros H. apply Z.eqb_eq in H. subst c. exists a, b. auto.
Qed.

(** A float whose value is zero is one of the two zeros. *)
Lemma exact_zero (x : float) : exact x = Some 0%Z -> (x =? 0)%float = true.
Proof.
  unfold exact. rewrite eqb_spec. pose proof (Prim2SF_valid x) as Hv.
  change (Prim2SF 0) with (S754_zero false).
  destruct (Prim2SF x) as [s|s| |s m e]; try discriminate; [reflexivity|].
  intros [= H]. exfalso.
  cbn [valid_binary] in Hv. unfold bounded, canonical_mantissa in Hv.
  apply andb_true_iff in Hv as [Hc _]. apply Z.eqb_eq in Hc.
  unfold fexp, emin, emax, prec in Hc.
  assert (He : (0 <= e + 1074)%Z) by lia.
  pose proof (Z.pow_pos_nonneg 2 (e + 1074) ltac:(lia) He) as Hp.
  destruct s; cbn [cond_Zopp] in H; nia.
Qed.

(** The plain summation, when no addition rounds, gives the exact total. *)
Lemma plain_exact_total (xs : list float) : forall (acc : float) (a : Z),
  exact acc = Some a -> plain_exact acc xs = true ->
  exists t, exact_total xs = Some t
            /\ exact (fold_left (fun acc x => (acc + x)%float) xs acc) = Some (a + t)%Z.
Proof.
  induction xs as [|x r IH]; intros acc a Ha H; cbn [plain_exact exact_total fold_left] in *.
  - exists 0%Z. rewrite Z.add_0_r. auto.
  - apply andb_true_iff in H as [Hx Hr].
    apply exactly_true in Hx as (a' & b & Ha' & Hb & Hc).
    rewrite Ha in Ha'. injection Ha' as <-.
    destruct (IH _ _ Hc Hr) as (t & Ht & Hsum).
    exists (b + t)%Z. rewrite Hb, Ht, Hsum. split; [reflexivity | f_equal; lia].
Qed.

(** The compensated summation, when no operation rounds: the compensation
    stays a zero and the total is exact. *)
Lemma compensated_exact_total (xs : list float) : forall (total : Py.compensated) (a : Z),
  exact (Py.hi total) = Some a -> exact (Py.lo total) = Some 0%Z ->
  compensated_exact total xs = true ->
  exists t, exact_total xs = Some t
            /\ exact (Py.cs_to_double (fold_left Py.cs_add xs total)) = Some (a + t)%Z.
Proof.
  induction xs as [|x r IH]; intros total a Ha Hl H;
    cbn [compensated_exact exact_total fold_left] in *.
  - exists 0%Z. rewrite Z.add_0_r. split; [reflexivity|].
    unfold Py.cs_to_double. rewrite (exact_zero _ Hl). exact Ha.
  - apply andb_true_iff in H as [Hx Hr].
    unfold cs_add_exact in Hx. cbv zeta in Hx.
    apply andb_true_iff in Hx as [Ht Hx].
    apply exactly_true in Ht as (a' & b & Ha' & Hb & Hc).
    rewrite Ha in Ha'. injection Ha' as <-.
    assert (Hstep : exact (Py.hi (Py.cs_add total x)) = Some (a + b)%Z
                    /\ exact (Py.lo (Py.cs_add total x)) = Some 0%Z).
    { unfold Py.cs_add. cbv zeta.
      destruct (abs x <=? abs (Py.hi total))%float; cbn [Py.hi Py.lo];
        (split; [exact Hc|]);
        apply andb_true_iff in Hx as [Hx H3]; apply andb_true_iff in Hx as [H1 H2];
        apply exactly_true in H1 as (u1 & v1 & Hu1 & Hv1 & Hd1);
        apply exactly_true in H2 as (u2 & v2 & Hu2 & Hv2 & Hd2);
        apply exactly_true in H3 as (u3 & v3 & Hu3 & Hv3 & Hd3);
        rewrite Hd3; f_equal;
        rewrite Hl in Hu3; rewrite Hd2 in Hv3; rewrite Hd1 in Hu2;
        rewrite ?Ha, ?Hb, ?Hc in *;
        repeat match goal with
               | E : Some _ = Some _ |- _ => injection E as E
               end; lia. }
    destruct Hstep as [Hhi Hlo].
    destruct (IH _ _ Hhi Hlo Hr) as (t & Ht & Hsum).
    exists (b + t)%Z. rewrite Hb, Ht, Hsum. split; [reflexivity | f_equal; lia].
Qed.

(** [sum(xs)], when no operation rounds, is the exact total, for either way
    of adding. *)
Lemma sum_exact_total (how : Py.summation) (xs : list float) :
  sum_exact how xs = true ->
  exists t, exact_total xs = Some t /\ exact (Py.sum how xs) = Some t.
Proof.
  assert (H0 : exact (Py.float_of_int 0) = Some 0%Z) by reflexivity.
  destruct how; cbn [sum_exact Py.sum].
  - intros H. destruct (plain_exact_total xs _ _ H0 H) as (t & Ht & Hs).
    exists t. auto.
  - destruct xs as [|x r].
    + intros _. exists 0%Z. auto.
    + intros H. apply andb_true_iff in H as [Hx Hr].
      apply exactly_true in Hx as (a & b & Ha & Hb & Hc).
      rewrite H0 in Ha. injection Ha as <-. cbn [Z.add] in Hc.
      destruct (compensated_exact_total r (Py.mkCompensated (Py.float_of_int 0 + x) 0)
                  b Hc eq_refl Hr) as (t & Ht & Hs).
      exists (b + t)%Z. cbn [exact_total]. rewrite Hb, Ht. auto.
Qed.

(** The average, when nothing rounds, is the exact arithmetic mean: the
    count times its value is the exact total. *)
Lemma mean_exact (e : env) (xs : list float) :
  no_rounding e xs = true ->
  exists q total,
    exact (mean e xs) = Some q /\ exact_total xs = Some total
    /\ (Z.of_nat (List.length xs) * q = total)%Z.
Proof.
  unfold no_rounding. intros H. apply andb_true_iff in H as [Hs Hq].
  destruct (sum_exact_total _ _ Hs) as (t & Ht & Hsum). rewrite Hsum in Hq.
  destruct (exact (mean e xs)) as [q|]; [|discriminate].
  apply Z.eqb_eq in Hq. exists q, t. auto.
Qed.

(** C1, as stated, fails twice.  For [run_test] of compare_jit.py a trial
    set with a successful outcome followed by a failed one yields no summary.
    And the average of [run_benchmark] is not exactly the arithmetic mean:
    for three successful trials of the same elapsed time, 0.1 ms, whose mean
    is that time, the average is the next float above it, whichever way the
    interpreter adds. *)
Lemma C1_counterexample :
  ~ (forall (e : env) (w : world) (file description : string),
       samples (trial_set e file (calls w) 5) <> [] ->
       exists avg, fst (CompareJit.run_test file description e w) = Ok (Some avg))
  /\ forall how : Py.summation,
     ~ (forall (e : env) (w : world) (file : string) (iterations : Z),
          summation e = how ->
          let ts := samples (trial_set e file (calls w) (Z.to_nat iterations)) in
          ts <> [] ->
          exists (avg : float) (lo hi : option float) (q total : Z),
            fst (BenchmarkRunner.run_benchmark file iterations e w) = Ok (Some avg, lo, hi)
            /\ exact avg = Some q /\ exact_total ts = Some total
            /\ (Z.of_nat (List.length ts) * q = total)%Z).
Proof.
  split.
  - intros H.
    destruct (H (scripted [ok_after 50; failure]) w0 "t"%string "d"%string) as [avg Havg].
    + discriminate.
    + vm_compute in Havg. discriminate.
  - intros how H.
    pose (tenth := ok_after 0x1.999999999999ap-4).
    destruct (H (scripted_on how [tenth; tenth; tenth]) w0 "t"%string 3%Z eq_refl)
      as (avg & lo & hi & q & total & Hrun & Hq & Ht & Heq).
    + discriminate.
    + destruct how; vm_compute in Hrun; injection Hrun as <- _ _;
        vm_compute in Hq; injection Hq as <-;
        vm_compute in Ht; injection Ht as <-;
        vm_compute in Heq; discriminate.
Qed.

(** C1 (amended): for every trial set with a successful outcome and no NaN
    among the successful elapsed times, [run_benchmark] returns their average,
    their minimum and their maximum; failed outcomes take no part.  The
    average is [sum(times) / len(times)] in floating point: it is exactly the
    arithmetic mean when nothing rounds, in the sum, however the interpreter
    adds, and in the division.  [run_test] of compare_jit.py returns that
    average when all five trials succeeded, then printing it with the minimum
    and the maximum, and no average as soon as one trial failed. *)
Theorem C1_summary_of_successes (e : env) (w : world) (file : string) (iterations : Z) :
  let ts := samples (trial_set e file (calls w) (Z.to_nat iterations)) in
  ts <> [] -> no_nan ts ->
  (exists lo hi,
     fst (BenchmarkRunner.run_benchmark file iterations e w)
       = Ok (Some (mean e ts), Some lo, Some hi)
     /\ In lo ts /\ lower_bound lo ts /\ In hi ts /\ upper_bound hi ts)
  /\ (no_rounding e ts = true ->
      exists q total : Z,
        exact (mean e ts) = Some q /\ exact_total ts = Some total
        /\ (Z.of_nat (List.length ts) * q = total)%Z)
  /\ List.length ts
       = List.length (filter succeeded (trial_set e file (calls w) (Z.to_nat iterations)))
  /\ forall description,
       let outs := trial_set e file (calls w) 5 in
       fst (CompareJit.run_test file description e w)
         = (if forallb succeeded outs then Ok (Some (mean e (samples outs)))
            else failure_result outs)
       /\ (forall avg, failure_result outs <> Ok (Some avg))
       /\ (forallb succeeded outs = true ->
           (no_rounding e (samples outs) = true ->
            exists q total : Z,
              exact (mean e (samples outs)) = Some q
              /\ exact_total (samples outs) = Some total
              /\ (5 * q = total)%Z)
           /\ (no_nan (samples outs) ->
               exists pre lo hi,
                 stdout (snd (CompareJit.run_test file description e w))
                   = pre ++ [ [Lit nl; Lit "  Average: "; Fixed 2 (mean e (samples outs));
                               Lit "ms"];
                              [Lit "  Min:     "; Fixed 2 lo; Lit "ms"];
                              [Lit "  Max:     "; Fixed 2 hi; Lit "ms"] ]
                 /\ In lo (samples outs) /\ lower_bound lo (samples outs)
                 /\ In hi (samples outs) /\ upper_bound hi (samples outs))).
Proof.
  intros ts Hne Hnan. destruct w as [k out]. cbn [calls] in *.
  split; [|split; [|split]].
  - destruct (min_spec ts Hne Hnan) as (lo & Hlo & Hlo_in & Hlo_lb).
    destruct (max_spec ts Hne Hnan) as (hi & Hhi & Hhi_in & Hhi_ub).
    exists lo, hi. rewrite run_benchmark_run. cbn [fst]. fold ts.
    rewrite Hlo, Hhi. destruct ts; [congruence|]. auto.
  - apply mean_exact.
  - unfold ts, samples. apply length_map.
  - intros description. cbv zeta. set (outs := trial_set e file k 5).
    rewrite cmp_run_test_run. fold outs. cbn [fst snd stdout].
    split; [reflexivity|]. split; [apply failure_result_no_average|].
    intros Hall. split.
    + intros Hex. destruct (mean_exact _ _ Hex) as (q & total & Hq & Ht & Heq).
      exists q, total. rewrite (samples_all outs Hall) in Heq.
      rewrite length_map in Heq. auto.
    + intros Hnan5. rewrite Hall.
      assert (Hne5 : samples outs <> [])
        by (apply samples_nonempty; [assumption | discriminate]).
      destruct (min_spec _ Hne5 Hnan5) as (lo & Hlo & Hlo_in & Hlo_lb).
      destruct (max_spec _ Hne5 Hnan5) as (hi & Hhi & Hhi_in & Hhi_ub).
      eexists _, lo, hi. unfold cmp_summary. rewrite Hlo, Hhi.
      split; [|auto]. rewrite !app_assoc. reflexivity.
Qed.

Lemma C1_witness :
  let e := scripted [ok_after 50; failure; ok_after 60] in
  let ts := samples (trial_set e "t" 0 3) in
  (ts <> [] /\ no_nan ts) /\
  (exists lo hi,
     fst (BenchmarkRunner.run_benchmark "t" 3 e w0) = Ok (Some (mean e ts), Some lo, Some hi)
     /\ In lo ts /\ lower_bound lo ts /\ In hi ts /\ upper_bound hi ts)
  /\ (no_rounding e ts = true ->
      exists q total : Z,
        exact (mean e ts) = Some q /\ exact_total ts = Some total
        /\ (Z.of_nat (List.length ts) * q = total)%Z)
  /\ no_rounding e ts = true.
Proof.
  intros e ts.
  assert (Hne : ts <> []) by discriminate.
  assert (Hnan : no_nan ts)
    by (intros t [<-|[<-|[]]]; reflexivity).
  split; [split; assumption|].
  pose proof (C1_summary_of_successes e w0 "t" 3 Hne Hnan) as (H1 & H2 & _).
  split; [exact H1|]. split; [exact H2 | reflexivity].
Defined.

(** The scenario of three successful trials of 50, 55 and 60 ms, under
    either way of adding. *)
Example run_benchmark_50_55_60 (how : Py.summation) :
  let e := scripted_on how [ok_after 50; ok_after 55; ok_after 60] in
  fst (BenchmarkRunner.run_benchmark "t" 3 e w0)
    = Ok (Some 55%float, Some 50%float, Some 60%float)
  /\ no_rounding e [50; 55; 60]%float = true.
Proof. destruct how; split; reflexivity. Qed.

(** The two ways of adding differ in the last bits: 50.1, 55.2 and 60.3 ms
    average to 55.20000000000001 under the plain summation and to
    55.199999999999996 under the compensated one. *)
Example the_two_sums_differ :
  let ts := [0x1.90ccccccccccdp+5; 0x1.b99999999999ap+5; 0x1.e266666666666p+5]%float in
  (Py.sum Py.Plain ts / 3 = 0x1.b99999999999bp+5
   /\ Py.sum Py.Compensated ts / 3 = 0x1.b999999999999p+5)%float.
Proof. split; reflexivity. Qed.

(** C2: when no trial of the set succeeded, [run_benchmark] returns
    [(None, None, None)]: there is no average, minimum or maximum at all, in
    particular none that is zero, and the caller, whose test [if avg:] fails,
    prints no result for it. *)
Theorem C2_no_success_no_summary (e : env) (w : world) (file : string) (iterations : Z) :
  samples (trial_set e file (calls w) (Z.to_nat iterations)) = [] ->
  fst (BenchmarkRunner.run_benchmark file iterations e w) = Ok (None, None, None)
  /\ forall w', BenchmarkRunner.print_results (None, None, None) e w' = (Ok tt, w').
Proof.
  intros H. destruct w as [k out]. cbn [calls] in *.
  rewrite run_benchmark_run. cbn [fst]. rewrite H. split; reflexivity.
Qed.

Lemma C2_witness :
  samples (trial_set (scripted [failure; failure; failure]) "t" (calls w0) (Z.to_nat 3)) = []
  /\ fst (BenchmarkRunner.run_benchmark "t" 3 (scripted [failure; failure; failure]) w0)
     = Ok (None, None, None).
Proof.
  split; [reflexivity|].
  apply (C2_no_success_no_summary (scripted [failure; failure; failure]) w0 "t" 3).
  reflexivity.
Defined.

End Aggregation.

(** ** The trial runners *)

Module TrialRunner.
Import LoopFacts.


(** The first failure ends the part of the trial set that is run. *)
Lemma until_failure_first (outs : list invocation) (j : nat) (r : invocation) :
  nth_error outs j = Some r -> succeeded r = false ->
  forallb succeeded (firstn j outs) = true ->
  until_failure outs = firstn (S j) outs /\ forallb succeeded outs = false.
Proof.
  revert j. induction outs as [|x outs IH]; intros [|j]; simpl; try discriminate.
  - intros [= ->] -> _. split; reflexivity.
  - intros Hnth Hr Hall. apply andb_true_iff in Hall as [Hx Hall].
    rewrite Hx. destruct (IH j Hnth Hr Hall) as [-> ->]. split; reflexivity.
Qed.

(** C7, as stated, fails for [run_test]: after a failed first trial the
    four remaining invocations are not made. *)
Lemma C7_counterexample :
  ~ (forall (e : env) (w : world) (file description : string),
       calls (snd (CompareJit.run_test file description e w)) = calls w + 5).
Proof.
  intros H.
  specialize (H (scripted [failure; ok_after 50; ok_after 50; ok_after 50; ok_after 50])
                w0 "t"%string "d"%string).
  vm_compute in H. discriminate.
Qed.

(** The first failed outcome is the one the trials before which succeeded. *)
Lemma first_failure_at (outs : list invocation) (j : nat) (r : invocation) :
  nth_error outs j = Some r -> succeeded r = false ->
  forallb succeeded (firstn j outs) = true ->
  first_failure outs = Some r.
Proof.
  revert j. induction outs as [|x outs IH]; intros [|j]; simpl; try discriminate.
  - intros [= ->] -> _. reflexivity.
  - intros Hnth Hr Hall. apply andb_true_iff in Hall as [Hx Hall].
    rewrite Hx. apply (IH j); assumption.
Qed.

Lemma samples_spec (outs : list invocation) (t : float) :
  In t (samples outs)
  <-> exists r, In r outs /\ succeeded r = true /\ elapsed_ms r = t.
Proof.
  unfold samples. rewrite in_map_iff. split.
  - intros (r & <- & Hr). apply filter_In in Hr as [Hin Hs]. exists r. auto.
  - intros (r & Hin & Hs & <-). exists r. split; [reflexivity|].
    apply filter_In. auto.
Qed.

(** C7 (amended): [run_benchmark] makes all its invocations whatever their
    outcomes and prints a record for each of them, an elapsed time or
    [ERROR] with the error text; its loop collects the elapsed times of the
    successful ones, in order, and of no other, and the result is computed
    from those.  The two [run_test] make their invocations up to the first
    failed one and return [None] after it, or raise [TypeError] when its error
    text is [None]; when there is none they return the average of the five
    elapsed times. *)
Theorem C7_trials_performed (e : env) (w : world) (file : string) (iterations : Z) :
  let outs := trial_set e file (calls w) (Z.to_nat iterations) in
  let outs5 := trial_set e file (calls w) 5 in
  (for_all (Py.range iterations) (BenchmarkRunner.trial file) [] e w
   = (Ok (map elapsed_ms (filter succeeded outs)),
      mkWorld (calls w + Z.to_nat iterations) (stdout w ++ runner_reports 0 outs))
   /\ BenchmarkRunner.run_benchmark file iterations e w
      = (Ok match map elapsed_ms (filter succeeded outs) with
            | [] => (None, None, None)
            | t :: ts => (Some (mean e (t :: ts)), Py.min (t :: ts), Py.max (t :: ts))
            end,
         mkWorld (calls w + Z.to_nat iterations) (stdout w ++ runner_reports 0 outs))
   /\ (forall t, In t (map elapsed_ms (filter succeeded outs))
                 <-> exists r, In r outs /\ succeeded r = true /\ elapsed_ms r = t))
  /\ (forall description,
        calls (snd (CompareJit.run_test file description e w))
          = calls w + List.length (until_failure outs5)
        /\ fst (CompareJit.run_test file description e w)
          = (if forallb succeeded outs5 then Ok (Some (mean e (map elapsed_ms outs5)))
             else failure_result outs5))
  /\ (forall name,
        DetailedBenchmark.run_test file name e w
          = (if forallb succeeded outs5 then Ok (Some (mean e (map elapsed_ms outs5)))
             else failure_result outs5,
             mkWorld (calls w + List.length (until_failure outs5))
                     (stdout w ++ det_reports (until_failure outs5))))
  /\ (forallb succeeded outs5 = true -> until_failure outs5 = outs5)
  /\ (forall j r, nth_error outs5 j = Some r -> succeeded r = false ->
        forallb succeeded (firstn j outs5) = true ->
        until_failure outs5 = firstn (S j) outs5 /\ forallb succeeded outs5 = false
        /\ failure_result outs5
           = match stderr (completed r) with
             | Some _ => Ok None
             | None => Raise TypeError
             end).
Proof.
  intros outs outs5. destruct w as [k out]. cbn [calls stdout] in *.
  assert (Hres : run_test_result e outs5
                 = if forallb succeeded outs5
                   then Ok (Some (mean e (map elapsed_ms outs5)))
                   else failure_result outs5).
  { unfold run_test_result. destruct (forallb succeeded outs5) eqn:E; [|reflexivity].
    rewrite (samples_all outs5 E). reflexivity. }
  split; [split; [|split]|split; [|split; [|split]]].
  - unfold Py.range. rewrite runner_trials_run. reflexivity.
  - rewrite run_benchmark_run. fold outs. unfold samples.
    destruct (map elapsed_ms (filter succeeded outs)); reflexivity.
  - apply samples_spec.
  - intros description. rewrite cmp_run_test_run. fold outs5. cbn [fst snd calls].
    split; [reflexivity | exact Hres].
  - intros name. rewrite det_run_test_run. fold outs5. rewrite Hres. reflexivity.
  - apply until_failure_all.
  - intros j r Hnth Hr Hall.
    destruct (until_failure_first outs5 j r Hnth Hr Hall) as [H1 H2].
    split; [exact H1|]. split; [exact H2|].
    unfold failure_result. rewrite (first_failure_at outs5 j r Hnth Hr Hall).
    reflexivity.
Qed.

End TrialRunner.

(** ** The regime split and the comparison of detailed_benchmark.py *)

Module Analysis.
Import DetailedBenchmark FloatOrder.

Lemma to_float_run (z : Z) (e : env) (w : world) :
  (Z.abs z < float_limit)%Z -> to_float z e w = (Ok (Py.float_of_int z), w).
Proof.
  intros H. unfold to_float.
  destruct (float_limit <=? Z.abs z)%Z eqn:E; [apply Z.leb_le in E; lia | reflexivity].
Qed.

Lemma float_limit_large : (100000 < float_limit)%Z.
Proof. reflexivity. Qed.

Lemma mul_int_run (x : float) (z : Z) (e : env) (w : world) :
  (Z.abs z < float_limit)%Z ->
  mul_int x z e w = (Ok (x * Py.float_of_int z)%float, w).
Proof. intros H. unfold mul_int, bind. rewrite to_float_run by assumption. reflexivity. Qed.

Lemma per_iteration_run (x : float) (n : Z) (e : env) (w : world) :
  (0 < Z.abs n < float_limit)%Z ->
  per_iteration x n e w
  = (Ok (x / Py.float_of_int n * Py.float_of_int 1000)%float, w).
Proof.
  intros H. unfold per_iteration, div_int, bind.
  rewrite to_float_run by lia.
  destruct (n =? 0)%Z eqn:E; [apply Z.eqb_eq in E; lia|].
  unfold ret. rewrite mul_int_run by (pose proof float_limit_large; lia). reflexivity.
Qed.

(** A unit count of zero makes the division of line 60 raise. *)
Lemma per_iteration_zero (x : float) (e : env) (w : world) :
  per_iteration x 0 e w = (Raise ZeroDivisionError, w).
Proof. reflexivity. Qed.

(** For more than 1000 units the quotient of line 68 is a float, never an
    overflow. *)
Lemma native_fraction_some (total : Z) :
  (1000 < total)%Z ->
  Py.int_quotient (total - 1000) total = Some (native_fraction total).
Proof.
  intros H.
  destruct (Rounding.proper_fraction (total - 1000) total ltac:(lia)) as (q & Hq & _).
  revert Hq. unfold Py.int_quotient, native_fraction.
  destruct (SFdiv prec emax (Py.int_operand (total - 1000)) (Py.int_operand total));
    try discriminate; reflexivity.
Qed.

Lemma print_split_run (total : Z) (e : env) (w : world) :
  print_split total e w
  = if (1000 <? total)%Z then
      (Ok tt,
       mkWorld (calls w)
         (stdout w ++
          [ [Lit "  Interpreter: "; Int 1000; Lit " iterations"];
            [Lit "  JIT native:  "; Int (total - 1000); Lit " iterations (";
             Fixed 1 (native_fraction total * Py.float_of_int 100)%float;
             Lit "%)"] ]))
    else (Ok tt, w).
Proof.
  unfold print_split, regime_split. rewrite Z.gtb_ltb.
  destruct (1000 <? total)%Z eqn:E; [|reflexivity].
  apply Z.ltb_lt in E.
  unfold bind, print, jit_percent, int_truediv, bind. cbn [calls stdout].
  destruct (total =? 0)%Z eqn:E0; [apply Z.eqb_eq in E0; lia|].
  rewrite (native_fraction_some total E).
  unfold ret. rewrite mul_int_run by (pose proof float_limit_large; lia).
  cbn [calls stdout]. rewrite <- app_assoc. reflexivity.
Qed.

(** C3, as stated, fails: for 500 units the claim has 500 warm-up units
    and no native one, and the script makes no split. *)
Lemma C3_counterexample :
  ~ (forall total : Z, (0 <= total)%Z ->
       regime_split total = Some (Z.min total 1000, total - Z.min total 1000)%Z).
Proof.
  intros H. pose proof (H 500%Z ltac:(lia)) as H500.
  vm_compute in H500. discriminate.
Qed.

(** C3 (amended): the threshold is the constant 1000 and the split is
    made for more than 1000 units only; then the warm-up units are
    [min(total, 1000) = 1000], the native units are the rest, a positive
    number, and the two add up to the total.  For 1000 units or fewer there is
    no split. *)
Theorem C3_regime_split (total : Z) :
  regime_split total
  = (if (1000 <? total)%Z
     then Some (Z.min total 1000, total - Z.min total 1000)%Z
     else None)
  /\ forall warmup native : Z,
       regime_split total = Some (warmup, native) ->
       (warmup = 1000 /\ 0 < native /\ warmup + native = total)%Z.
Proof.
  unfold regime_split. rewrite Z.gtb_ltb.
  destruct (1000 <? total)%Z eqn:E.
  - apply Z.ltb_lt in E. split.
    + rewrite Z.min_r by lia. reflexivity.
    + intros warmup native [= <- <-]. lia.
  - split; [reflexivity | discriminate].
Qed.


(** C4, as stated, fails: for 0 units the claim has a native fraction of 0,
    and the script computes and prints no fraction at all. *)
Lemma C4_counterexample :
  ~ (forall total : Z, (0 <= total)%Z ->
       exists (fraction : float) (w' : world) (l : line),
         print_split total (scripted []) w0 = (Ok tt, w')
         /\ In l (stdout w') /\ In (Fixed 1 fraction) l).
Proof.
  intros H. destruct (H 0%Z ltac:(lia)) as (fraction & w' & l & Hrun & Hl & _).
  vm_compute in Hrun. injection Hrun as <-. destruct Hl.
Qed.

(** C4 (amended): for more than 1000 units the script prints the native
    share as the percentage [native / total * 100], where
    [native = total - 1000] and [0 < native < total]: the division has a
    nonzero divisor and does not overflow, the fraction it gives is a float
    from 0 to 1 and the percentage a float from 0 to 100, whatever the size
    of the total; for the two test cases of the script the percentage is 90
    and 99.  For 1000 units or fewer, zero included, nothing is divided and
    nothing is printed. *)
Theorem C4_native_share (total : Z) (e : env) (w : world) :
  print_split total e w
  = (if (1000 <? total)%Z then
       (Ok tt,
        mkWorld (calls w)
          (stdout w ++
           [ [Lit "  Interpreter: "; Int 1000; Lit " iterations"];
             [Lit "  JIT native:  "; Int (total - 1000); Lit " iterations (";
              Fixed 1 (native_fraction total * Py.float_of_int 100)%float;
              Lit "%)"] ]))
     else (Ok tt, w))
  /\ ((1000 < total)%Z ->
      (0 < total - 1000 < total)%Z
      /\ int_truediv (total - 1000) total e w = (Ok (native_fraction total), w)
      /\ (0 <=? native_fraction total)%float = true
      /\ (native_fraction total <=? 1)%float = true
      /\ (0 <=? native_fraction total * Py.float_of_int 100)%float = true
      /\ (native_fraction total * Py.float_of_int 100 <=? 100)%float = true)
  /\ map (fun t : test_case => (native_fraction (snd t) * Py.float_of_int 100)%float)
         tests
     = [90%float; 99%float].
Proof.
  split; [apply print_split_run|]. split; [|reflexivity].
  intros H. split; [lia|].
  pose proof (native_fraction_some total H) as Hsome.
  destruct (Rounding.proper_fraction (total - 1000) total ltac:(lia))
    as (q & Hq & H0 & H1 & H2 & H3).
  rewrite Hsome in Hq. injection Hq as <-.
  split; [|auto].
  unfold int_truediv. rewrite Hsome.
  destruct (total =? 0)%Z eqn:E0; [apply Z.eqb_eq in E0; lia | reflexivity].
Qed.

Lemma C4_witness :
  (1000 < 100000)%Z
  /\ (0 <=? native_fraction 100000)%float = true
  /\ (native_fraction 100000 <=? 1)%float = true
  /\ (native_fraction 100000 * Py.float_of_int 100 <=? 100)%float = true.
Proof.
  assert (H : (1000 < 100000)%Z) by lia.
  split; [exact H|].
  destruct (proj1 (proj2 (C4_native_share 100000 (scripted []) w0)) H)
    as (_ & _ & H0 & H1 & _ & H3).
  auto.
Defined.

(** C5, as stated, fails: when the second per-unit cost is the greater,
    no improvement percentage is computed, though the first cost is positive. *)
Lemma C5_counterexample :
  ~ (forall (time1 time2 : float) (iters1 iters2 : Z) (p1 p2 : float),
       (0 < iters1)%Z -> (0 < iters2)%Z ->
       per_iteration time1 iters1 (scripted []) w0 = (Ok p1, w0) ->
       per_iteration time2 iters2 (scripted []) w0 = (Ok p2, w0) ->
       (0 <? p1)%float = true ->
       compare p1 p2 (scripted []) w0
       = (Ok (Speedup ((p1 - p2) / p1 * 100)%float), w0)).
Proof.
  intros H.
  specialize (H 45%float 550%float 10000%Z 100000%Z 4.5%float 5.5%float).
  vm_compute in H.
  specialize (H eq_refl eq_refl eq_refl eq_refl eq_refl). discriminate.
Qed.

(** The verdict of [compare], case by case. *)
Lemma compare_run (per_iter1 per_iter2 : float) (e : env) (w : world) :
  compare per_iter1 per_iter2 e w
  = (if (per_iter2 <? per_iter1)%float then
       if (per_iter1 =? 0)%float then Raise ZeroDivisionError
       else Ok (Speedup ((per_iter1 - per_iter2) / per_iter1
                         * Py.float_of_int 100)%float)
     else Ok NoImprovement,
     w).
Proof.
  unfold compare, Py.gtb.
  destruct (per_iter2 <? per_iter1)%float; [|reflexivity].
  unfold bind, div. destruct (per_iter1 =? 0)%float; reflexivity.
Qed.

(** Two neighbouring floats, one unit in the last place apart, are told
    apart: the script sees a speedup. *)
Example neighbours_are_a_speedup :
  next_up (next_down 1) = 1%float
  /\ exists improvement,
       compare 1 (next_down 1) (scripted []) w0 = (Ok (Speedup improvement), w0).
Proof. split; [reflexivity | eexists; reflexivity]. Qed.

(** C6 (amended): the verdict is a speedup exactly when the second
    per-unit cost is strictly below the first, with no margin, and then the
    percentage is [(per_iter1 - per_iter2) / per_iter1 * 100] (the division
    raises when the first cost is a zero); in every other case, greater or
    equal alike, it is the one verdict "no improvement". *)
Theorem C6_verdict (per_iter1 per_iter2 : float) (e : env) (w : world) :
  compare per_iter1 per_iter2 e w
  = (if (per_iter2 <? per_iter1)%float then
       if (per_iter1 =? 0)%float then Raise ZeroDivisionError
       else Ok (Speedup ((per_iter1 - per_iter2) / per_iter1
                         * Py.float_of_int 100)%float)
     else Ok NoImprovement,
     w)
  /\ ((exists improvement,
         fst (compare per_iter1 per_iter2 e w) = Ok (Speedup improvement))
      -> (per_iter2 <? per_iter1)%float = true)
  /\ ((per_iter2 <? per_iter1)%float = false ->
      compare per_iter1 per_iter2 e w = (Ok NoImprovement, w))
  /\ ((per_iter2 <? per_iter1)%float = true ->
      (per_iter1 =? 0)%float = false ->
      exists improvement,
        compare per_iter1 per_iter2 e w = (Ok (Speedup improvement), w)).
Proof.
  unfold compare, Py.gtb.
  destruct (per_iter2 <? per_iter1)%float.
  - unfold bind, div. destruct (per_iter1 =? 0)%float; cbn [fst].
    + repeat split; try discriminate; trivial.
    + repeat split; try discriminate; trivial. intros _ _. eexists. reflexivity.
  - repeat split; try discriminate; trivial. intros [i Hi]. discriminate Hi.
Qed.

(** C6, as stated, fails: whatever the positive margin, a per-unit cost
    equal to the margin against a cost of zero is a speedup for the script,
    and is not below the first cost less the margin. *)
Lemma C6_counterexample :
  ~ (exists eps : float,
       (0 <? eps)%float = true /\
       forall a b : float,
         (exists i, compare a b (scripted []) w0 = (Ok (Speedup i), w0))
         <-> (b <? a - eps)%float = true).
Proof.
  intros (eps & Hpos & H).
  assert (Hlt : (0 <? eps - eps)%float = true).
  { apply H. eexists. rewrite compare_run. rewrite Hpos, (pos_not_zero _ Hpos).
    reflexivity. }
  rewrite sub_diag_not_pos in Hlt. discriminate.
Qed.

(** C5 (amended): the per-unit cost of either side is
    [average / units * 1000], in microseconds, and the improvement
    [(per_iter1 - per_iter2) / per_iter1 * 100] is computed when the second
    cost is strictly below the first, and not otherwise.  For 55 ms over
    10000 units against 450 ms over 100000 units the costs are 5.5 and 4.5
    microseconds, the verdict is a speedup and the percentage, about
    18.18, prints as 18.2. *)
Theorem C5_per_unit_and_improvement
    (time1 time2 : float) (iters1 iters2 : Z) (e : env) (w : world) :
  (0 < iters1 < float_limit)%Z -> (0 < iters2 < float_limit)%Z ->
  let p1 := (time1 / Py.float_of_int iters1 * Py.float_of_int 1000)%float in
  let p2 := (time2 / Py.float_of_int iters2 * Py.float_of_int 1000)%float in
  per_iteration time1 iters1 e w = (Ok p1, w)
  /\ per_iteration time2 iters2 e w = (Ok p2, w)
  /\ ((p2 <? p1)%float = true -> (0 <? p1)%float = true ->
      compare p1 p2 e w
      = (Ok (Speedup ((p1 - p2) / p1 * Py.float_of_int 100)%float), w))
  /\ ((p2 <? p1)%float = false -> compare p1 p2 e w = (Ok NoImprovement, w))
  /\ analysis [("10K iterations"%string, 10000%Z, 55%float);
               ("100K iterations"%string, 100000%Z, 450%float)] e w
     = (Ok tt,
        mkWorld (calls w)
          (stdout w ++
           [ [Lit nl; Lit "10K iterations:  "; Fixed 4 5.5; Lit "μs per iteration"];
             [Lit "100K iterations: "; Fixed 4 4.5; Lit "μs per iteration"];
             [Lit nl; Lit "Speedup with more JIT usage: ";
              Fixed 1 ((5.5 - 4.5) / 5.5 * 100); Lit "%"];
             [Lit "This shows JIT is working! Longer runs benefit more from native code."] ]))
  /\ (1815 / 100 <=? (5.5 - 4.5) / 5.5 * 100)%float = true
  /\ ((5.5 - 4.5) / 5.5 * 100 <? 1825 / 100)%float = true.
Proof.
  intros H1 H2 p1 p2.
  split; [apply per_iteration_run; lia|].
  split; [apply per_iteration_run; lia|].
  split; [|split; [|split; [|split; reflexivity]]].
  - intros Hlt Hpos. rewrite compare_run, Hlt, (pos_not_zero _ Hpos). reflexivity.
  - intros Hlt. rewrite compare_run, Hlt. reflexivity.
  - destruct w as [k out]. unfold analysis, bind.
    rewrite !per_iteration_run by (pose proof float_limit_large; lia).
    change (55 / Py.float_of_int 10000 * Py.float_of_int 1000)%float with 5.5%float.
    change (450 / Py.float_of_int 100000 * Py.float_of_int 1000)%float with 4.5%float.
    cbn [print calls stdout]. rewrite compare_run.
    change (4.5 <? 5.5)%float with true. change (5.5 =? 0)%float with false.
    change (Py.float_of_int 100) with 100%float.
    cbn [print_verdict bind print calls stdout fst snd].
    unfold bind, print. cbn [calls stdout].
    rewrite <- !app_assoc. reflexivity.
Qed.

Lemma C5_witness :
  ((0 < 10000 < float_limit)%Z /\ (0 < 100000 < float_limit)%Z) /\
  per_iteration 55 10000 (scripted []) w0 = (Ok 5.5%float, w0)
  /\ per_iteration 450 100000 (scripted []) w0 = (Ok 4.5%float, w0).
Proof.
  assert (H1 : (0 < 10000 < float_limit)%Z) by (split; reflexivity).
  assert (H2 : (0 < 100000 < float_limit)%Z) by (split; reflexivity).
  split; [split; assumption|].
  pose proof (C5_per_unit_and_improvement 55 450 10000 100000 (scripted []) w0 H1 H2)
    as (Ha & Hb & _).
  split; [exact Ha | exact Hb].
Defined.

End Analysis.

(** ** The reports *)

Module Report.
Import LoopFacts Analysis DetailedBenchmark.

Lemma headings_run (heading : list string) (e : env) : forall k out,
  for_all heading (fun l _ => print [Lit l]) tt e (mkWorld k out)
  = (Ok tt, mkWorld k (out ++ map (fun l => [Lit l]) heading)).
Proof.
  induction heading as [|l heading IH]; intros k out; simpl.
  - unfold ret. rewrite app_nil_r. reflexivity.
  - unfold bind, print. cbn [calls stdout]. rewrite IH, <- app_assoc. reflexivity.
Qed.

(** One benchmark of benchmark_runner.py whose average is missing or zero:
    the heading and the trials are printed, and nothing else. *)
Lemma benchmark_skipped (heading : list string) (file : string) (e : env) k out :
  let outs := trial_set e file k 3 in
  Py.truthy_opt
    match samples outs with
    | [] => None
    | _ :: _ => Some (mean e (samples outs))
    end = false ->
  BenchmarkRunner.benchmark heading file e (mkWorld k out)
  = (Ok tt,
     mkWorld (k + 3)
       (out ++ map (fun l => [Lit l]) heading ++ runner_reports 0 outs)).
Proof.
  intros outs H. unfold BenchmarkRunner.benchmark, bind.
  rewrite headings_run, run_benchmark_run.
  change (Z.to_nat 3) with 3%nat. fold outs.
  unfold BenchmarkRunner.print_results.
  destruct (samples outs) as [|t ts]; cbn [Py.truthy_opt] in *.
  - unfold ret. rewrite <- app_assoc. reflexivity.
  - rewrite H. unfold ret. rewrite <- app_assoc. reflexivity.
Qed.

(** The loop body of detailed_benchmark.py, when [run_test] gives no
    average or a zero one: the name and the rule are printed, then what
    [run_test] printed, and [results] is left as it was, unless [run_test]
    raised. *)
Lemma report_case_skipped (file name : string) (iterations : Z)
    (rs : list result_row) (e : env) k out :
  let outs := trial_set e file k 5 in
  (forallb succeeded outs && Py.truthy (mean e (samples outs)))%bool = false ->
  report_case (file, name, iterations) rs e (mkWorld k out)
  = (match run_test_result e outs with
     | Ok _ => Ok rs
     | Raise x => Raise x
     end,
     mkWorld (k + List.length (until_failure outs))
       (out ++ [[Lit nl; Lit name; Lit ":"]; [Lit (Py.str_mul "-" 80)]]
            ++ det_reports (until_failure outs))).
Proof.
  intros outs H. unfold report_case, bind, print. cbn [calls stdout].
  rewrite det_run_test_run. fold outs. unfold run_test_result.
  destruct (forallb succeeded outs); cbn [andb] in H.
  - rewrite H. unfold ret. rewrite <- !app_assoc. reflexivity.
  - pose proof (failure_result_no_average outs) as Hno.
    destruct (failure_result outs) as [[a|]|x].
    + destruct (Hno a eq_refl).
    + unfold ret. rewrite <- !app_assoc. reflexivity.
    + rewrite <- !app_assoc. reflexivity.
Qed.

(** The loop body of detailed_benchmark.py: a run that ends without an
    exception either leaves [results] as it was, or adds the row of a test
    case with a nonzero unit count whose five trials all succeeded and whose
    average is not zero. *)
Lemma report_case_row (file name : string) (iterations : Z)
    (rs rs' : list result_row) (e : env) (w w' : world) :
  report_case (file, name, iterations) rs e w = (Ok rs', w') ->
  let outs := trial_set e file (calls w) 5 in
  (rs' = rs /\
   (forallb succeeded outs && Py.truthy (mean e (samples outs)))%bool = false)
  \/ (rs' = rs ++ [(name, iterations, mean e (samples outs))]
      /\ iterations <> 0%Z
      /\ Py.truthy (mean e (samples outs)) = true
      /\ forallb succeeded outs = true
      /\ calls w' = calls w + 5).
Proof.
  destruct w as [k out]. cbn [calls]. intros Hrun. cbv zeta.
  set (outs := trial_set e file k 5).
  destruct (forallb succeeded outs && Py.truthy (mean e (samples outs)))%bool eqn:E.
  - right. apply andb_true_iff in E as [Hall Htruthy].
    revert Hrun. unfold report_case, bind, print. cbn [calls stdout].
    rewrite det_run_test_run. fold outs.
    rewrite (run_test_result_all e outs Hall), Htruthy.
    rewrite (until_failure_all outs Hall).
    change (List.length outs) with 5%nat. cbn [calls stdout].
    unfold per_iteration, div_int, bind, to_float.
    destruct (float_limit <=? Z.abs iterations)%Z; [discriminate|].
    unfold ret at 1.
    destruct (iterations =? 0)%Z eqn:E0; [discriminate|].
    apply Z.eqb_neq in E0.
    unfold ret at 1. rewrite mul_int_run by (pose proof float_limit_large; lia).
    cbn [calls stdout]. rewrite print_split_run.
    destruct (1000 <? iterations)%Z; unfold ret; intros [= <- <-]; auto.
  - left. rewrite (report_case_skipped file name iterations rs e k out E) in Hrun.
    fold outs in Hrun. destruct (run_test_result e outs); [|discriminate].
    injection Hrun as <- _. split; reflexivity.
Qed.



Lemma trial_set_in (e : env) (file : string) (k n : nat) (r : invocation) :
  In r (trial_set e file k n) -> exists j, r = e j file.
Proof.
  unfold trial_set. rewrite in_map_iff. intros (j & <- & _). exists j; reflexivity.
Qed.

(** Successful trials print nothing in detailed_benchmark.py. *)
Lemma det_reports_all outs :
  forallb succeeded outs = true -> det_reports outs = [].
Proof.
  unfold det_reports, det_report_of.
  induction outs as [|r outs IH]; simpl; trivial.
  destruct (succeeded r); simpl; [assumption | discriminate].
Qed.

(** The loop body of detailed_benchmark.py for a test case of zero units
    whose five trials succeeded with a nonzero average: the division of line
    60 raises, after the average was printed. *)
Lemma report_case_zero_units (file name : string) (rs : list result_row)
    (e : env) k out :
  let outs := trial_set e file k 5 in
  (forallb succeeded outs && Py.truthy (mean e (samples outs)))%bool = true ->
  report_case (file, name, 0%Z) rs e (mkWorld k out)
  = (Raise ZeroDivisionError,
     mkWorld (k + 5)
       (out ++ [ [Lit nl; Lit name; Lit ":"]; [Lit (Py.str_mul "-" 80)];
                 [Lit "  Average time: "; Fixed 2 (mean e (samples outs)); Lit "ms"] ])).
Proof.
  intros outs H. apply andb_true_iff in H as [Hall Htruthy].
  unfold report_case, bind, print. cbn [calls stdout].
  rewrite det_run_test_run. fold outs.
    rewrite (run_test_result_all e outs Hall), Htruthy.
  rewrite (until_failure_all outs Hall).
  change (List.length outs) with 5%nat. cbn [calls stdout].
  rewrite per_iteration_zero, (det_reports_all outs Hall).
  rewrite app_nil_r, <- !app_assoc. reflexivity.
Qed.

(** C9, as stated, fails for a unit count of zero: the script has no test
    on the unit counts, and a test case of zero units whose trials succeed
    ends the run with [ZeroDivisionError] at line 60, where the claim has the
    comparison quietly left out. *)
Lemma C9_counterexample :
  ~ (forall (ts : list test_case) (e : env),
       (exists t, In t ts /\ snd t = 0%Z) ->
       fst (main_with ts e w0) = Ok tt).
Proof.
  intros H.
  specialize (H [("tests/programs/empty.pyh"%string, "0 iterations"%string, 0%Z);
                 ("tests/programs/benchmark_long.pyh"%string,
                  "100K iterations"%string, 100000%Z)]
                (scripted (repeat (ok_after 50) 10))).
  assert (Hrun : fst (main_with
                        [("tests/programs/empty.pyh"%string, "0 iterations"%string, 0%Z);
                         ("tests/programs/benchmark_long.pyh"%string,
                          "100K iterations"%string, 100000%Z)]
                        (scripted (repeat (ok_after 50) 10)) w0)
                 = Raise ZeroDivisionError) by (vm_compute; reflexivity).
  rewrite Hrun in H. discriminate H. eexists. split; [left; reflexivity | reflexivity].
Qed.

(** C9 (amended): in detailed_benchmark.py the two sides of the comparison
    are the first two rows of [results].  For a script of two test cases, a
    run of the loop that ends without an exception either gives both rows, and
    then each side has a nonzero unit count, five successful trials and an
    average that is not zero, or gives fewer rows, and then the analysis
    computes and prints nothing.  There is no test on the unit counts: a test
    case of zero units whose five trials succeeded with a nonzero average
    raises [ZeroDivisionError] in the loop, before any comparison. *)
Theorem C9_comparison_sides (t1 t2 : test_case) (e : env) (w : world) :
  (forall (rs : list result_row) (w' : world),
     for_all [t1; t2] report_case [] e w = (Ok rs, w') ->
     (exists a1 a2 : float,
        rs = [(snd (fst t1), snd t1, a1); (snd (fst t2), snd t2, a2)]
        /\ snd t1 <> 0%Z /\ snd t2 <> 0%Z
        /\ Py.truthy a1 = true /\ Py.truthy a2 = true
        /\ forallb succeeded (trial_set e (fst (fst t1)) (calls w) 5) = true
        /\ forallb succeeded (trial_set e (fst (fst t2)) (calls w + 5) 5) = true)
     \/ (List.length rs < 2 /\ analysis rs e w' = (Ok tt, w')))
  /\ (forall (file name : string) (rs : list result_row),
        let outs := trial_set e file (calls w) 5 in
        (forallb succeeded outs && Py.truthy (mean e (samples outs)))%bool = true ->
        fst (report_case (file, name, 0%Z) rs e w) = Raise ZeroDivisionError).
Proof.
  split.
  - intros rs w'.
    destruct t1 as [[f1 n1] i1], t2 as [[f2 n2] i2]. cbn [fst snd for_all].
    unfold bind.
    destruct (report_case (f1, n1, i1) [] e w) as [[rs1|x1] w1] eqn:E1; [|discriminate].
    destruct (report_case (f2, n2, i2) rs1 e w1) as [[rs2|x2] w2] eqn:E2; [|discriminate].
    unfold ret. intros [= <- <-].
    apply report_case_row in E1. apply report_case_row in E2. cbv zeta in E1, E2.
    destruct E1 as [[-> _] | (-> & Hi1 & Ht1 & Hs1 & Hc1)];
      destruct E2 as [[-> _] | (-> & Hi2 & Ht2 & Hs2 & Hc2)].
    + right. split; [simpl; lia | reflexivity].
    + right. split; [simpl; lia | reflexivity].
    + right. split; [simpl; lia | reflexivity].
    + left. rewrite Hc1 in Hs2. eexists _, _. cbn [app]. repeat split; eassumption.
  - intros file name rs. destruct w as [k out]. cbn [calls]. cbv zeta. intros H.
    rewrite report_case_zero_units by exact H. reflexivity.
Qed.

Lemma C9_witness :
  let e := scripted (repeat (ok_after 50) 10) in
  let run := for_all tests report_case [] e w0 in
  run = (Ok [("10K iterations"%string, 10000%Z, 50%float);
             ("100K iterations"%string, 100000%Z, 50%float)], snd run)
  /\ ((exists a1 a2 : float,
         [("10K iterations"%string, 10000%Z, 50%float);
          ("100K iterations"%string, 100000%Z, 50%float)]
         = [("10K iterations"%string, 10000%Z, a1);
            ("100K iterations"%string, 100000%Z, a2)]
         /\ 10000%Z <> 0%Z /\ 100000%Z <> 0%Z
         /\ Py.truthy a1 = true /\ Py.truthy a2 = true
         /\ forallb succeeded
              (trial_set e "tests/programs/benchmark_arithmetic.pyh" 0 5) = true
         /\ forallb succeeded
              (trial_set e "tests/programs/benchmark_long.pyh" 5 5) = true)
      \/ (2 < 2 /\
          analysis [("10K iterations"%string, 10000%Z, 50%float);
                    ("100K iterations"%string, 100000%Z, 50%float)] e (snd run)
          = (Ok tt, snd run))).
Proof.
  intros e run.
  assert (Hrun : run
    = (Ok [("10K iterations"%string, 10000%Z, 50%float);
           ("100K iterations"%string, 100000%Z, 50%float)], snd run))
    by (vm_compute; reflexivity).
  split; [exact Hrun|].
  exact (proj1 (C9_comparison_sides
           ("tests/programs/benchmark_arithmetic.pyh"%string, "10K iterations"%string, 10000%Z)
           ("tests/programs/benchmark_long.pyh"%string, "100K iterations"%string, 100000%Z)
           e w0) _ (snd run) Hrun).
Defined.

(** C10: a test case whose trials all succeed with an elapsed time of
    exactly 0.0 has the average 0.0, which the test [if avg:] takes for false
    as it takes [None].  In benchmark_runner.py the result is
    [(0.0, 0.0, 0.0)] and the results are not printed, as for
    [(None, None, None)]; in detailed_benchmark.py [run_test] returns 0.0 and
    the loop prints nothing about the test case after its name and adds no row
    to [results], so that it takes no part in the comparison. *)
Theorem C10_zero_average_skipped (e : env) (w : world) (file : string) :
  (forall j, j < 5 ->
     succeeded (e (calls w + j) file) = true
     /\ elapsed_ms (e (calls w + j) file) = 0%float) ->
  fst (BenchmarkRunner.run_benchmark file 3 e w)
    = Ok (Some 0%float, Some 0%float, Some 0%float)
  /\ (forall w1 : world,
        BenchmarkRunner.print_results (Some 0%float, Some 0%float, Some 0%float) e w1
        = (Ok tt, w1)
        /\ BenchmarkRunner.print_results (None, None, None) e w1 = (Ok tt, w1))
  /\ (forall heading : list string,
        BenchmarkRunner.benchmark heading file e w
        = (Ok tt,
           mkWorld (calls w + 3)
             (stdout w ++ map (fun l => [Lit l]) heading ++
              [ [Lit "  Run "; Int 1; Lit ": "; Fixed 2 0; Lit "ms"];
                [Lit "  Run "; Int 2; Lit ": "; Fixed 2 0; Lit "ms"];
                [Lit "  Run "; Int 3; Lit ": "; Fixed 2 0; Lit "ms"] ])))
  /\ (forall name : string,
        fst (DetailedBenchmark.run_test file name e w) = Ok (Some 0%float))
  /\ (forall (name : string) (iterations : Z) (rs : list result_row),
        report_case (file, name, iterations) rs e w
        = (Ok rs,
           mkWorld (calls w + 5)
             (stdout w ++
              [ [Lit nl; Lit name; Lit ":"]; [Lit (Py.str_mul "-" 80)] ]))).
Proof.
  destruct w as [k out]. cbn [calls stdout]. intros H.
  destruct (H 0 ltac:(lia)) as [S0 E0]. rewrite Nat.add_0_r in S0, E0.
  destruct (H 1 ltac:(lia)) as [S1 E1]. replace (k + 1) with (S k) in S1, E1 by lia.
  destruct (H 2 ltac:(lia)) as [S2 E2]. replace (k + 2) with (S (S k)) in S2, E2 by lia.
  destruct (H 3 ltac:(lia)) as [S3 E3].
  replace (k + 3) with (S (S (S k))) in S3, E3 by lia.
  destruct (H 4 ltac:(lia)) as [S4 E4].
  replace (k + 4) with (S (S (S (S k)))) in S4, E4 by lia.
  assert (Hs3 : samples (trial_set e file k 3) = [0; 0; 0]%float).
  { unfold samples, trial_set. cbn [seq map filter].
    rewrite S0, S1, S2. cbn [map]. rewrite E0, E1, E2. reflexivity. }
  assert (Hall : forallb succeeded (trial_set e file k 5) = true).
  { unfold trial_set. cbn [seq map forallb]. rewrite S0, S1, S2, S3, S4. reflexivity. }
  assert (Hs5 : samples (trial_set e file k 5) = [0; 0; 0; 0; 0]%float).
  { rewrite samples_all by exact Hall. unfold trial_set. cbn [seq map].
    rewrite E0, E1, E2, E3, E4. reflexivity. }
  assert (Hm3 : mean e [0; 0; 0]%float = 0%float)
    by (unfold mean; destruct (summation e); reflexivity).
  assert (Hm5 : mean e [0; 0; 0; 0; 0]%float = 0%float)
    by (unfold mean; destruct (summation e); reflexivity).
  split; [|split; [|split; [|split]]].
  - rewrite run_benchmark_run. change (Z.to_nat 3) with 3%nat. rewrite Hs3, Hm3. reflexivity.
  - intros w1. split; reflexivity.
  - intros heading. rewrite benchmark_skipped.
    + unfold trial_set. cbn [seq map runner_reports]. unfold runner_report_of.
      rewrite S0, S1, S2, E0, E1, E2. reflexivity.
    + rewrite Hs3, Hm3. reflexivity.
  - intros name. rewrite det_run_test_run.
    rewrite (run_test_result_all e _ Hall), Hs5, Hm5. reflexivity.
  - intros name iterations rs. rewrite report_case_skipped.
    + rewrite (run_test_result_all e _ Hall), (until_failure_all _ Hall).
      replace (det_reports (trial_set e file k 5)) with (@nil line).
      * rewrite app_nil_r. reflexivity.
      * unfold det_reports, det_report_of, trial_set. cbn [seq map flat_map].
        rewrite S0, S1, S2, S3, S4. reflexivity.
    + rewrite Hall, Hs5, Hm5. reflexivity.
Qed.

Lemma C10_witness :
  let e := scripted (repeat (ok_after 0) 5) in
  (forall j, j < 5 ->
     succeeded (e (calls w0 + j) "t"%string) = true
     /\ elapsed_ms (e (calls w0 + j) "t"%string) = 0%float)
  /\ fst (BenchmarkRunner.run_benchmark "t" 3 e w0)
     = Ok (Some 0%float, Some 0%float, Some 0%float)
  /\ fst (DetailedBenchmark.run_test "t" "n" e w0) = Ok (Some 0%float).
Proof.
  intros e.
  assert (H : forall j, j < 5 ->
     succeeded (e (calls w0 + j) "t"%string) = true
     /\ elapsed_ms (e (calls w0 + j) "t"%string) = 0%float).
  { intros j Hj. do 5 (destruct j as [|j]; [split; reflexivity|]). lia. }
  split; [exact H|].
  pose proof (C10_zero_average_skipped e w0 "t" H) as (Ha & _ & _ & Hb & _).
  split; [exact Ha | exact (Hb "n"%string)].
Defined.

End Report.

(** ** The scripts as wholes *)

Module Scripts.
Import LoopFacts Analysis Report DetailedBenchmark.


(** One benchmark of benchmark_runner.py, whatever the outcomes. *)
Lemma benchmark_run (heading : list string) (file : string) (e : env) k out :
  BenchmarkRunner.benchmark heading file e (mkWorld k out)
  = (Ok tt,
     mkWorld (k + 3) (out ++ runner_section e heading (trial_set e file k 3))).
Proof.
  unfold BenchmarkRunner.benchmark, bind, runner_section.
  rewrite headings_run, run_benchmark_run.
  change (Z.to_nat 3) with 3%nat.
  unfold BenchmarkRunner.print_results, runner_results.
  destruct (samples (trial_set e file k 3)) as [|t ts] eqn:Es.
  - cbn [Py.truthy_opt]. unfold ret. rewrite app_nil_r, <- app_assoc. reflexivity.
  - cbn [Py.truthy_opt Py.min Py.max].
    destruct (Py.truthy (mean e (t :: ts))).
    + unfold bind, print. cbn [calls stdout].
      rewrite <- !app_assoc. reflexivity.
    + unfold ret. rewrite app_nil_r, <- app_assoc. reflexivity.
Qed.

Lemma runner_main_run (e : env) (w : world) :
  BenchmarkRunner.main e w
  = (Ok tt,
     mkWorld (calls w + 6)
       (stdout w
        ++ [ [Lit (Py.str_mul "=" 60)];
             [Lit "Pyhyeon JIT Performance Benchmark"];
             [Lit (Py.str_mul "=" 60)] ]
        ++ runner_section e BenchmarkRunner.heading1
             (trial_set e "tests/programs/benchmark_arithmetic.pyh" (calls w) 3)
        ++ runner_section e BenchmarkRunner.heading2
             (trial_set e "tests/programs/jit_simple.pyh" (calls w + 3) 3)
        ++ [ [Lit (nl ++ Py.str_mul "=" 60)];
             [Lit "Note: JIT compilation happens at runtime after 1000 executions."];
             [Lit "The first 1000 iterations run in interpreter mode, then switch to"];
             [Lit "native code execution for the remaining iterations."];
             [Lit (Py.str_mul "=" 60)] ])).
Proof.
  destruct w as [k out]. cbn [calls stdout].
  unfold BenchmarkRunner.main, bind, print. cbn [calls stdout].
  rewrite !benchmark_run. cbn [calls stdout].
  replace (k + 3 + 3) with (k + 6) by lia.
  rewrite <- !app_assoc. reflexivity.
Qed.

(** X1: in every run whose invocations return, benchmark_runner.py runs
    to its end.  It makes exactly six invocations, three on each test file,
    and prints the title, the two benchmarks in order (each with its heading,
    a record for every trial, the error text of a failed one being printed
    as [None] when it was not decoded, and its results when the average is
    not zero) and the closing note: the formatting of [None] never happens,
    and a failed first benchmark does not keep the second from being run. *)
Theorem X1_runner_main_completes (e : env) (w : world) :
  BenchmarkRunner.main e w
  = (Ok tt,
     mkWorld (calls w + 6)
       (stdout w
        ++ [ [Lit (Py.str_mul "=" 60)];
             [Lit "Pyhyeon JIT Performance Benchmark"];
             [Lit (Py.str_mul "=" 60)] ]
        ++ runner_section e BenchmarkRunner.heading1
             (trial_set e "tests/programs/benchmark_arithmetic.pyh" (calls w) 3)
        ++ runner_section e BenchmarkRunner.heading2
             (trial_set e "tests/programs/jit_simple.pyh" (calls w + 3) 3)
        ++ [ [Lit (nl ++ Py.str_mul "=" 60)];
             [Lit "Note: JIT compilation happens at runtime after 1000 executions."];
             [Lit "The first 1000 iterations run in interpreter mode, then switch to"];
             [Lit "native code execution for the remaining iterations."];
             [Lit (Py.str_mul "=" 60)] ]))
  /\ forall (i : nat) (r : invocation),
       succeeded r = false -> stderr (completed r) = None ->
       runner_report_of i r
       = [ [Lit "  Run "; Int (Z.of_nat i + 1); Lit ": ERROR"]; [Lit "None"] ].
Proof.
  split; [apply runner_main_run|].
  intros i r Hr Hnone. unfold runner_report_of. rewrite Hr, Hnone. reflexivity.
Qed.








End Scripts.

(** ** Test cases whose trials fail *)

Module FailedCases.
Import LoopFacts Analysis Report Scripts DetailedBenchmark.




End FailedCases.


(** ** Edge cases *)

Module Edges.
Import LoopFacts Analysis Report DetailedBenchmark.

(** [s[:n]] is the first [n] code points of [s], or all of [s]: what is
    left begins a code point. *)
Lemma prefix_split (s : string) : forall n : nat,
  exists rest : string,
    s = (Py.prefix n s ++ rest)%string
    /\ Py.str_len (Py.prefix n s) = Nat.min n (Py.str_len s)
    /\ (rest = EmptyString
        \/ exists c rest', rest = String c rest' /\ Py.continues c = false).
Proof.
  induction s as [|c s IH]; intros n; cbn [Py.prefix Py.str_len].
  - exists EmptyString. rewrite Nat.min_0_r. auto.
  - destruct (Py.continues c) eqn:E.
    + destruct (IH n) as (rest & Hs & Hlen & Hrest). exists rest.
      cbn [Py.str_len append]. rewrite E, <- Hs. auto.
    + destruct n as [|n].
      * exists (String c s). cbn [Py.str_len append]. split; [reflexivity|].
        split; [reflexivity|]. right. exists c, s. auto.
      * destruct (IH n) as (rest & Hs & Hlen & Hrest). exists rest.
        cbn [Py.str_len append]. rewrite E, <- Hs, Hlen. auto.
Qed.

Lemma first_failure_some outs :
  forallb succeeded outs = false ->
  exists r, first_failure outs = Some r /\ In r outs /\ succeeded r = false.
Proof.
  induction outs as [|x outs IH]; simpl; [discriminate|].
  destruct (succeeded x) eqn:E; simpl.
  - intros H. destruct (IH H) as (r & Hf & Hin & Hr). exists r. auto.
  - intros _. exists x. auto.
Qed.

(** The first failed outcome is a failed one, and every one before it
    succeeded. *)
Lemma first_failure_spec outs r :
  first_failure outs = Some r ->
  forallb succeeded outs = false
  /\ exists j, nth_error outs j = Some r /\ succeeded r = false
               /\ forallb succeeded (firstn j outs) = true
               /\ until_failure outs = firstn (S j) outs.
Proof.
  induction outs as [|x outs IH]; simpl; [discriminate|].
  destruct (succeeded x) eqn:E; simpl.
  - intros H. destruct (IH H) as (Hall & j & Hnth & Hr & Hbefore & Hunt).
    split; [exact Hall|]. exists (S j). simpl. rewrite E, Hbefore, Hunt. auto.
  - intros [= ->]. split; [reflexivity|]. exists 0. simpl. auto.
Qed.

Lemma det_reports_failure outs r :
  first_failure outs = Some r ->
  det_reports (until_failure outs) = error_record "ERROR: " r.
Proof.
  unfold det_reports, det_report_of.
  induction outs as [|x outs IH]; simpl; [discriminate|].
  destruct (succeeded x) eqn:E; simpl; rewrite E; simpl.
  - exact IH.
  - intros [= ->]. rewrite app_nil_r. reflexivity.
Qed.

Lemma cmp_reports_failure outs r :
  first_failure outs = Some r ->
  forall i, exists pre,
    cmp_reports i (until_failure outs) = pre ++ error_record "  ERROR: " r.
Proof.
  induction outs as [|x outs IH]; simpl; [discriminate|].
  destruct (succeeded x) eqn:E; simpl.
  - intros H i. destruct (IH H (S i)) as [pre Hpre].
    exists (cmp_report_of i x ++ pre). rewrite Hpre, app_assoc. reflexivity.
  - intros [= ->] i. exists []. unfold cmp_report_of. rewrite E, app_nil_r. reflexivity.
Qed.

(** X5: a [run_test] that meets a failed trial stops at it: no later
    trial is run.  When the error text of that trial is a string, one error
    record is printed for it, the last record printed, with the first 100
    code points of the text, or all of it when it is shorter, and [None] is
    returned; when the error text is [None], nothing is printed for the trial
    and [TypeError] is raised. *)
Theorem X5_error_text_is_truncated (e : env) (w : world) (file : string)
    (r : invocation) :
  let outs := trial_set e file (calls w) 5 in
  first_failure outs = Some r ->
  (exists j, nth_error outs j = Some r /\ succeeded r = false
             /\ forallb succeeded (firstn j outs) = true
             /\ until_failure outs = firstn (S j) outs)
  /\ (forall text, stderr (completed r) = Some text ->
      exists t rest : string,
        text = (t ++ rest)%string
        /\ Py.str_len t = Nat.min 100 (Py.str_len text)
        /\ (rest = EmptyString
            \/ exists c rest', rest = String c rest' /\ Py.continues c = false)
        /\ (forall name,
              DetailedBenchmark.run_test file name e w
              = (Ok None,
                 mkWorld (calls w + List.length (until_failure outs))
                         (stdout w ++ [[Lit "ERROR: "; Lit t]])))
        /\ (forall description,
              fst (CompareJit.run_test file description e w) = Ok None
              /\ exists pre,
                   stdout (snd (CompareJit.run_test file description e w))
                   = pre ++ [[Lit "  ERROR: "; Lit t]]))
  /\ (stderr (completed r) = None ->
      (forall name,
         DetailedBenchmark.run_test file name e w
         = (Raise TypeError,
            mkWorld (calls w + List.length (until_failure outs)) (stdout w)))
      /\ (forall description,
            fst (CompareJit.run_test file description e w) = Raise TypeError)).
Proof.
  intros outs Hf. destruct w as [k out]. cbn [calls stdout] in *.
  destruct (first_failure_spec outs r Hf) as (Hfail & Hpos).
  assert (Hres : run_test_result e outs = failed_trial r)
    by (unfold run_test_result, failure_result; rewrite Hfail, Hf; reflexivity).
  split; [exact Hpos|]. split.
  - intros text Htext.
    destruct (prefix_split text 100) as (rest & Hsplit & Hlen & Hrest).
    exists (Py.prefix 100 text), rest.
    split; [exact Hsplit|]. split; [exact Hlen|]. split; [exact Hrest|].
    unfold failed_trial in Hres. rewrite Htext in Hres. split.
    + intros name. rewrite det_run_test_run. fold outs.
      rewrite Hres, (det_reports_failure outs r Hf). unfold error_record.
      rewrite Htext. reflexivity.
    + intros description. rewrite cmp_run_test_run. fold outs. rewrite Hres, Hfail.
      cbn [fst snd stdout]. split; [reflexivity|].
      destruct (cmp_reports_failure outs r Hf 0) as [pre ->].
      unfold error_record. rewrite Htext.
      eexists. rewrite app_nil_r, !app_assoc. reflexivity.
  - intros Hnone. unfold failed_trial in Hres. rewrite Hnone in Hres. split.
    + intros name. rewrite det_run_test_run. fold outs.
      rewrite Hres, (det_reports_failure outs r Hf). unfold error_record.
      rewrite Hnone, app_nil_r. reflexivity.
    + intros description. rewrite cmp_run_test_run. fold outs. rewrite Hres.
      reflexivity.
Qed.

Lemma X5_witness :
  let e := scripted [ok_after 50; failure] in
  first_failure (trial_set e "t" (calls w0) 5) = Some failure
  /\ exists t rest : string,
       "boom"%string = (t ++ rest)%string
       /\ Py.str_len t = Nat.min 100 (Py.str_len "boom")
       /\ forall name,
            DetailedBenchmark.run_test "t" name e w0
            = (Ok None,
               mkWorld (0 + List.length (until_failure (trial_set e "t" 0 5)))
                       ([] ++ [[Lit "ERROR: "; Lit t]])).
Proof.
  intros e.
  assert (H : first_failure (trial_set e "t" (calls w0) 5) = Some failure) by reflexivity.
  split; [exact H|].
  destruct (proj1 (proj2 (X5_error_text_is_truncated e w0 "t" failure H)) "boom"%string
              eq_refl)
    as (t & rest & H1 & H2 & _ & H3 & _).
  exists t, rest. auto.
Defined.

(** A text of 101 two-byte code points is cut after the 100th of them,
    that is after 200 bytes. *)
Example prefix_counts_code_points :
  let text := Py.str_mul "é" 101 in
  String.length text = 202
  /\ Py.str_len text = 101
  /\ Py.prefix 100 text = Py.str_mul "é" 100
  /\ String.length (Py.prefix 100 text) = 200.
Proof. repeat split; reflexivity. Qed.

(** The loop of detailed_benchmark.py over any list of test cases. *)
Lemma results_rows (e : env) (ts : list test_case) :
  forall (rs0 rs : list result_row) (w w' : world),
  for_all ts report_case rs0 e w = (Ok rs, w') ->
  exists added : list result_row,
    rs = rs0 ++ added
    /\ subseq (map (fun row : result_row => (fst (fst row), snd (fst row))) added)
              (map (fun t : test_case => (snd (fst t), snd t)) ts)
    /\ Forall (fun row : result_row =>
                 snd (fst row) <> 0%Z /\ Py.truthy (snd row) = true) added.
Proof.
  induction ts as [|[[file name] iterations] ts IH]; intros rs0 rs w w';
    cbn [for_all map].
  - intros H. unfold ret in H. injection H as <- <-. exists []. rewrite app_nil_r.
    split; [reflexivity|]. split; constructor.
  - unfold bind.
    destruct (report_case (file, name, iterations) rs0 e w) as [[rs1|x] w1] eqn:E1;
      [|discriminate].
    intros Hrest. apply report_case_row in E1. cbv zeta in E1.
    destruct (IH rs1 rs w1 w' Hrest) as (added & -> & Hsub & Hall).
    destruct E1 as [[-> _] | (-> & Hit & Htruthy & _)].
    + exists added. split; [reflexivity|]. split; [|exact Hall].
      apply subseq_skip. exact Hsub.
    + exists ((name, iterations, mean e (samples (trial_set e file (calls w) 5))) :: added).
      split; [rewrite <- app_assoc; reflexivity|]. split.
      * cbn [map fst snd]. apply subseq_take. exact Hsub.
      * constructor; [split; assumption | exact Hall].
Qed.

(** X4: whatever the list of test cases, a run of the loop of
    detailed_benchmark.py that ends without an exception only adds rows to
    [results], at most one for a test case and in the order of the test cases,
    each with the name and the unit count of its test case, a unit count that
    is not zero and an average that is not zero. *)
Theorem X4_results_follow_tests (e : env) (ts : list test_case)
    (rs : list result_row) (w w' : world) :
  for_all ts report_case [] e w = (Ok rs, w') ->
  subseq (map (fun row : result_row => (fst (fst row), snd (fst row))) rs)
         (map (fun t : test_case => (snd (fst t), snd t)) ts)
  /\ Forall (fun row : result_row =>
               snd (fst row) <> 0%Z /\ Py.truthy (snd row) = true) rs
  /\ List.length rs <= List.length ts.
Proof.
  intros Hrun. destruct (results_rows e ts [] rs w w' Hrun) as (added & -> & Hsub & Hall).
  cbn [app]. split; [exact Hsub|]. split; [exact Hall|].
  clear - Hsub.
  assert (Hlen : forall (A : Type) (xs ys : list A),
            subseq xs ys -> List.length xs <= List.length ys).
  { intros A xs ys H. induction H; simpl; lia. }
  apply Hlen in Hsub. rewrite !length_map in Hsub. exact Hsub.
Qed.

Lemma X4_witness :
  let e := scripted [failure; ok_after 50; ok_after 50; ok_after 50;
                     ok_after 50; ok_after 50] in
  let run := for_all tests report_case [] e w0 in
  run = (Ok [("100K iterations"%string, 100000%Z, 50%float)], snd run)
  /\ subseq [("100K iterations"%string, 100000%Z)]
            [("10K iterations"%string, 10000%Z); ("100K iterations"%string, 100000%Z)].
Proof.
  intros e run.
  assert (Hrun : run = (Ok [("100K iterations"%string, 100000%Z, 50%float)], snd run))
    by (vm_compute; reflexivity).
  split; [exact Hrun|].
  exact (proj1 (X4_results_follow_tests e tests _ w0 (snd run) Hrun)).
Defined.

End Edges.

(** ** Floats at the edges *)

Module FloatEdges.
Import LoopFacts FloatOrder.

(** A strict comparison that holds has no NaN on either side. *)
Lemma ltb_no_nan (x y : float) :
  (x <? y)%float = true -> is_nan x = false /\ is_nan y = false.
Proof.
  rewrite !is_nan_spec, ltb_spec. unfold SFltb.
  destruct (Prim2SF x) as [[]|[]| |[] m e], (Prim2SF y) as [[]|[]| |[] m' e'];
    simpl; intros H; try discriminate H; split; reflexivity.
Qed.

Lemma min_step_nan (cur x : float) : is_nan (Py.min_step cur x) = is_nan cur.
Proof.
  unfold Py.min_step. destruct (x <? cur)%float eqn:E; [|reflexivity].
  apply ltb_no_nan in E as [-> ->]. reflexivity.
Qed.

Lemma max_step_nan (cur x : float) : is_nan (Py.max_step cur x) = is_nan cur.
Proof.
  unfold Py.max_step, Py.gtb. destruct (cur <? x)%float eqn:E; [|reflexivity].
  apply ltb_no_nan in E as [-> ->]. reflexivity.
Qed.

Lemma fold_min_nan (r : list float) : forall cur,
  is_nan (fold_left Py.min_step r cur) = is_nan cur.
Proof.
  induction r as [|x r IH]; intros cur; simpl; [reflexivity|].
  rewrite IH. apply min_step_nan.
Qed.

Lemma fold_max_nan (r : list float) : forall cur,
  is_nan (fold_left Py.max_step r cur) = is_nan cur.
Proof.
  induction r as [|x r IH]; intros cur; simpl; [reflexivity|].
  rewrite IH. apply max_step_nan.
Qed.

Lemma fold_min_of_nan (r : list float) : forall cur,
  is_nan cur = true -> fold_left Py.min_step r cur = cur.
Proof.
  induction r as [|x r IH]; intros cur H; simpl; [reflexivity|].
  unfold Py.min_step at 2. destruct (x <? cur)%float eqn:E.
  - apply ltb_no_nan in E as [_ E]. congruence.
  - apply IH. exact H.
Qed.

Lemma fold_max_of_nan (r : list float) : forall cur,
  is_nan cur = true -> fold_left Py.max_step r cur = cur.
Proof.
  induction r as [|x r IH]; intros cur H; simpl; [reflexivity|].
  unfold Py.max_step at 2, Py.gtb. destruct (cur <? x)%float eqn:E.
  - apply ltb_no_nan in E as [E _]. congruence.
  - apply IH. exact H.
Qed.

(** X6: the minimum and the maximum that [run_benchmark] returns are NaN
    exactly when the first successful elapsed time is: a NaN in first place is
    returned as both, whatever follows, and a NaN in a later place is never
    returned. *)
Theorem X6_nan_only_from_first_sample (e : env) (w : world) (file : string)
    (iterations : Z) (t : float) (ts : list float) :
  samples (trial_set e file (calls w) (Z.to_nat iterations)) = t :: ts ->
  exists lo hi : float,
    fst (BenchmarkRunner.run_benchmark file iterations e w)
      = Ok (Some (mean e (t :: ts)), Some lo, Some hi)
    /\ is_nan lo = is_nan t /\ is_nan hi = is_nan t
    /\ (is_nan t = true -> lo = t /\ hi = t).
Proof.
  intros Hs. destruct w as [k out]. cbn [calls] in *.
  exists (fold_left Py.min_step ts t), (fold_left Py.max_step ts t).
  rewrite run_benchmark_run, Hs. cbn [fst Py.min Py.max].
  split; [reflexivity|]. split; [apply fold_min_nan|]. split; [apply fold_max_nan|].
  intros H. split; [apply fold_min_of_nan | apply fold_max_of_nan]; exact H.
Qed.

Lemma X6_witness :
  let e := scripted [mkInvocation nan 0 (mkCompleted 0 ""); ok_after 50; ok_after 60] in
  samples (trial_set e "t" (calls w0) (Z.to_nat 3)) = [nan; 50; 60]%float
  /\ exists lo hi : float,
       fst (BenchmarkRunner.run_benchmark "t" 3 e w0)
         = Ok (Some (mean e [nan; 50; 60]%float), Some lo, Some hi)
       /\ is_nan lo = true /\ is_nan hi = true.
Proof.
  intros e.
  assert (Hs : samples (trial_set e "t" (calls w0) (Z.to_nat 3)) = [nan; 50; 60]%float)
    by reflexivity.
  split; [exact Hs|].
  destruct (X6_nan_only_from_first_sample e w0 "t" 3 nan [50; 60]%float Hs)
    as (lo & hi & H1 & H2 & H3 & _).
  exists lo, hi. auto.
Defined.





(** [x - x] is the positive zero for every finite [x]. *)
Lemma sub_diag_finite (x : float) : is_finite x = true -> (x - x)%float = 0%float.
Proof.
  intros Hfin. apply Prim2SF_inj. rewrite sub_spec.
  change (Prim2SF 0) with (S754_zero false).
  unfold is_finite, is_infinity in Hfin.
  rewrite is_nan_spec, eqb_spec, abs_spec in Hfin.
  change (Prim2SF infinity) with (S754_infinity false) in Hfin.
  unfold SF64sub.
  destruct (Prim2SF x) as [[]|[]| |s m ex]; try discriminate Hfin; try reflexivity.
  unfold SFsub. rewrite Z.min_id.
  unfold shl_align. rewrite Z.sub_diag. simpl fst.
  try rewrite Z.sub_diag. reflexivity.
Qed.

(** X7: when the clock shows the same finite time before and after an
    invocation, the elapsed time is exactly 0.0, which [if avg:] takes for
    false. *)
Theorem X7_no_clock_advance (r : invocation) :
  is_finite (t_start r) = true -> t_end r = t_start r ->
  elapsed_ms r = 0%float /\ Py.truthy (elapsed_ms r) = false.
Proof.
  intros Hfin Heq. unfold elapsed_ms. rewrite Heq, (sub_diag_finite _ Hfin).
  split; reflexivity.
Qed.

Lemma X7_witness :
  let r := mkInvocation 1730000000 1730000000 (mkCompleted 0 "") in
  (is_finite (t_start r) = true /\ t_end r = t_start r)
  /\ elapsed_ms r = 0%float /\ Py.truthy (elapsed_ms r) = false.
Proof.
  intros r.
  assert (H1 : is_finite (t_start r) = true) by reflexivity.
  assert (H2 : t_end r = t_start r) by reflexivity.
  split; [split; assumption|]. exact (X7_no_clock_advance r H1 H2).
Defined.


(** X8: for an iteration count of zero or less [run_benchmark] makes no
    invocation, prints nothing and returns [(None, None, None)]. *)
Theorem X8_no_iterations (e : env) (w : world) (file : string) (iterations : Z) :
  (iterations <= 0)%Z ->
  BenchmarkRunner.run_benchmark file iterations e w = (Ok (None, None, None), w).
Proof.
  intros H. destruct w as [k out]. rewrite run_benchmark_run.
  replace (Z.to_nat iterations) with 0%nat by lia.
  cbn [trial_set seq map samples filter runner_reports].
  rewrite Nat.add_0_r, app_nil_r. reflexivity.
Qed.

Lemma X8_witness :
  (-2 <= 0)%Z
  /\ BenchmarkRunner.run_benchmark "t" (-2) (scripted [ok_after 50]) w0
     = (Ok (None, None, None), w0).
Proof.
  assert (H : (-2 <= 0)%Z) by lia.
  split; [exact H|]. exact (X8_no_iterations (scripted [ok_after 50]) w0 "t" (-2) H).
Defined.

(** X9: the two [run_test] are one function as to what they compute: from
    the same state and oracle they return the same value and make the same
    invocations (they differ in what they print); and when the five trials
    succeed, [run_benchmark] with five iterations returns the same average. *)
Theorem X9_run_tests_agree (e : env) (w : world) (file description name : string) :
  fst (CompareJit.run_test file description e w)
    = fst (DetailedBenchmark.run_test file name e w)
  /\ calls (snd (CompareJit.run_test file description e w))
     = calls (snd (DetailedBenchmark.run_test file name e w))
  /\ (forallb succeeded (trial_set e file (calls w) 5) = true ->
      exists avg lo hi : float,
        fst (DetailedBenchmark.run_test file name e w) = Ok (Some avg)
        /\ fst (BenchmarkRunner.run_benchmark file 5 e w)
           = Ok (Some avg, Some lo, Some hi)).
Proof.
  destruct w as [k out]. cbn [calls].
  rewrite cmp_run_test_run, det_run_test_run, run_benchmark_run.
  cbn [fst snd calls]. split; [reflexivity|]. split; [reflexivity|].
  intros Hall. rewrite (run_test_result_all e _ Hall). change (Z.to_nat 5) with 5%nat.
  pose proof (samples_nonempty _ Hall ltac:(discriminate)) as Hne.
  destruct (samples (trial_set e file k 5)) as [|t ts] eqn:Es; [congruence|].
  cbn [Py.min Py.max]. eexists _, _, _. split; reflexivity.
Qed.

End FloatEdges.

(** ** How detailed_benchmark.py ends *)

Module DetailedOutcome.
Import LoopFacts Scripts DetailedBenchmark.


(** With a clock that runs backwards during the second test case and a
    first test case of five runs of the smallest positive duration, the first
    per-iteration time rounds to zero, the second is negative, and the script
    ends by [ZeroDivisionError]. *)
Example detailed_main_raises :
  fst (DetailedBenchmark.main backwards_clock w0) = Raise ZeroDivisionError.
Proof. reflexivity. Qed.

(** With a first trial that fails and leaves no error text, the script
    ends by [TypeError] after one invocation. *)
Example detailed_main_type_error :
  let e := scripted [mkInvocation 0 1 (mkProcess 1 None)] in
  DetailedBenchmark.main e w0
  = (Raise TypeError,
     mkWorld 1
       [ [Lit (Py.str_mul "=" 80)];
         [Lit "JIT Performance Benchmark - Detailed Analysis"];
         [Lit (Py.str_mul "=" 80)];
         [Lit nl; Lit "JIT Configuration:"];
         [Lit "  Threshold: 1000 executions"];
         [Lit "  After 1000 calls: function is compiled to native x86-64 code"];
         [Lit (Py.str_mul "=" 80)];
         [Lit nl; Lit "10K iterations"; Lit ":"];
         [Lit (Py.str_mul "-" 80)] ]).
Proof. reflexivity. Qed.

End DetailedOutcome.
